(** * boxing-strike-vision: a shallow embedding of [boxing_strike_vision.py]

    The program opens a webcam, mirrors every captured frame, stamps an
    instantaneous frames-per-second figure on it, shows it in a window and
    stops when the user presses [q] or when the camera stops delivering.

    Conventions of the embedding.
    - Python [int] is [Z]; Python [float] is idealised as an exact rational
      [Q] (no rounding, no infinities, no NaN).
    - A frame is a grid of BGR byte triples, a list of rows.
    - Everything outside the program (the camera, the wall clock, the
      keyboard, the window registry, the console and the text rasteriser of
      OpenCV) lives in a [World]: a read-only [Env] of oracles plus counters,
      the set of open windows and a trace of the external calls made so far.
    - A method of a class with instance state [St] is a computation [M St A]:
      it receives the instance and the world and gives back an outcome, the
      mutated instance and the new world.  An exception keeps the mutations
      made before it was raised, as in Python.
    - [while] loops take fuel; running out of it is the outcome [OutOfFuel],
      which no [except] clause catches and no [finally] clause observes. *)

From Stdlib Require Import String Ascii List ZArith QArith Qround Bool Arith Lia.
From Stdlib Require Import DecimalString.
Import ListNotations.

Local Open Scope Z_scope.
Local Open Scope string_scope.
Local Open Scope list_scope.

(** ** Python values *)

(** [str(n)] for an [int]. *)
Definition str (n : Z) : string := NilZero.string_of_int (Z.to_int n).

(** [ord(c)]. *)
Definition ord (c : ascii) : Z := Z.of_nat (nat_of_ascii c).

(** [int(x)] for a float: truncation towards zero. *)
Definition int (x : Q) : Z := Z.quot (Qnum x) (Z.pos (Qden x)).

(** [a > b] on floats. *)
Definition Qgtb (a b : Q) : bool :=
  match Qcompare a b with Gt => true | _ => false end.

(** The exceptions the program raises or can meet.  The specification calls
    [IOError] "DeviceUnavailable" and [RuntimeError] "IllegalState";
    [cv2_error] is what OpenCV raises when handed [None] for an image.
    [KeyboardInterrupt] and [SystemExit] derive from [BaseException] only:
    an [except Exception] clause lets them through. *)
Inductive exn : Type :=
| IOError (msg : string)
| RuntimeError (msg : string)
| cv2_error (msg : string)
| KeyboardInterrupt
| SystemExit.

(** [isinstance(e, Exception)]. *)
Definition is_Exception (e : exn) : bool :=
  match e with
  | IOError _ | RuntimeError _ | cv2_error _ => true
  | KeyboardInterrupt | SystemExit => false
  end.

(** [str(e)] for an exception built from one message, or from none. *)
Definition str_exn (e : exn) : string :=
  match e with
  | IOError msg | RuntimeError msg | cv2_error msg => msg
  | KeyboardInterrupt | SystemExit => EmptyString
  end.

(** ** Frames *)

Definition Pixel : Type := (Byte.byte * Byte.byte * Byte.byte)%type.
Definition Frame : Type := list (list Pixel).

Definition frame_height (f : Frame) : nat := length f.

Definition frame_width (f : Frame) : nat :=
  match f with
  | [] => 0%nat
  | row :: _ => length row
  end.

(** Image arrays are rectangular: every row has the width of the first. *)
Definition rectangular (f : Frame) : bool :=
  forallb (fun row => Nat.eqb (length row) (frame_width f)) f.

(** The sample at row [r], column [x]. *)
Definition pixel (f : Frame) (r x : nat) : option Pixel :=
  match nth_error f r with
  | Some row => nth_error row x
  | None => None
  end.

(** ** The world outside the program *)

(** The parts of the outside world the program only consults. *)
Record Env : Type := {
  (** can the capture device with this index be opened? *)
  camera_ok : Z -> bool;
  (** what the [n]-th grab on the open device delivers; [None]: no frame *)
  feed : nat -> option Frame;
  (** the [n]-th reading of [time.time()] *)
  clock : nat -> Q;
  (** the [n]-th answer of [cv2.waitKey]; [-1] stands for no key *)
  keys : nat -> Z;
  (** the pixels [cv2.putText] produces for a frame, a text, an origin, a
      font, a scale, a colour and a thickness *)
  glyphs : Frame -> string -> Z * Z -> Z -> Z -> Z * Z * Z -> Z -> Frame
}.

(** One external call, as it is recorded in the trace. *)
Inductive event : Type :=
| EvOpen (device : Z) (ok : bool)
| EvSet (prop value : Z)
| EvGrab (got : bool)
| EvClose
| EvTime (t : Q)
| EvPutText (text : string) (org : Z * Z)
| EvNamedWindow (name : string)
| EvImshow (name : string) (f : Frame)
| EvWaitKey (delay key : Z)
| EvDestroyAll
| EvPrint (line : string).

Record World : Type := {
  env : Env;
  (** grabs made on an open device *)
  reads : nat;
  (** clock readings taken *)
  ticks : nat;
  (** keyboard polls made *)
  polls : nat;
  (** device handles currently held open *)
  held : nat;
  (** windows currently open *)
  windows : list string;
  (** external calls so far, most recent first *)
  trace : list event
}.

(** The world at process start. *)
Definition boot (e : Env) : World :=
  {| env := e; reads := 0; ticks := 0; polls := 0; held := 0;
     windows := []; trace := [] |}.

Definition log (ev : event) (w : World) : World :=
  {| env := env w; reads := reads w; ticks := ticks w; polls := polls w;
     held := held w; windows := windows w; trace := ev :: trace w |}.

Definition set_reads (n : nat) (w : World) : World :=
  {| env := env w; reads := n; ticks := ticks w; polls := polls w;
     held := held w; windows := windows w; trace := trace w |}.

Definition set_ticks (n : nat) (w : World) : World :=
  {| env := env w; reads := reads w; ticks := n; polls := polls w;
     held := held w; windows := windows w; trace := trace w |}.

Definition set_polls (n : nat) (w : World) : World :=
  {| env := env w; reads := reads w; ticks := ticks w; polls := n;
     held := held w; windows := windows w; trace := trace w |}.

Definition set_held (n : nat) (w : World) : World :=
  {| env := env w; reads := reads w; ticks := ticks w; polls := polls w;
     held := n; windows := windows w; trace := trace w |}.

Definition set_windows (ws : list string) (w : World) : World :=
  {| env := env w; reads := reads w; ticks := ticks w; polls := polls w;
     held := held w; windows := ws; trace := trace w |}.

(** How many recorded calls satisfy [p]. *)
Definition count (p : event -> bool) (w : World) : nat :=
  length (filter p (trace w)).

Definition is_print (line : string) (ev : event) : bool :=
  match ev with
  | EvPrint l => String.eqb l line
  | _ => false
  end.

Definition is_imshow (ev : event) : bool :=
  match ev with EvImshow _ _ => true | _ => false end.

Definition is_puttext (ev : event) : bool :=
  match ev with EvPutText _ _ => true | _ => false end.

Definition is_time (ev : event) : bool :=
  match ev with EvTime _ => true | _ => false end.

Definition is_grab (ev : event) : bool :=
  match ev with EvGrab _ => true | _ => false end.

Definition is_waitkey (ev : event) : bool :=
  match ev with EvWaitKey _ _ => true | _ => false end.

Definition is_destroy_all (ev : event) : bool :=
  match ev with EvDestroyAll => true | _ => false end.

(** ** Outcomes and the method monad *)

Inductive outcome (A : Type) : Type :=
| Ret (a : A)
| Raise (e : exn)
| OutOfFuel.

Arguments Ret {A} a.
Arguments Raise {A} e.
Arguments OutOfFuel {A}.

(** A call into the outside world. *)
Definition Ext (A : Type) : Type := World -> outcome A * World.

(** A method on an instance of state [St]. *)
Definition M (St A : Type) : Type := St -> World -> outcome A * St * World.

Definition ret {St A} (a : A) : M St A := fun s w => (Ret a, s, w).

Definition raise {St A} (e : exn) : M St A := fun s w => (Raise e, s, w).

Definition out_of_fuel {St A} : M St A := fun s w => (OutOfFuel, s, w).

Definition bind {St A B} (m : M St A) (k : A -> M St B) : M St B :=
  fun s w =>
    match m s w with
    | (Ret a, s', w') => k a s' w'
    | (Raise e, s', w') => (Raise e, s', w')
    | (OutOfFuel, s', w') => (OutOfFuel, s', w')
    end.

Declare Scope method_scope.
Delimit Scope method_scope with method.
Notation "x <- m ;; k" := (bind m (fun x => k))
  (at level 61, m at next level, right associativity) : method_scope.
Notation "m ;; k" := (bind m (fun _ => k))
  (at level 61, right associativity) : method_scope.

(** [self]: the instance as it is now. *)
Definition self {St} : M St St := fun s w => (Ret s, s, w).

(** An attribute assignment [self.x = v], given as the update of the instance. *)
Definition assign {St} (f : St -> St) : M St unit := fun s w => (Ret tt, f s, w).

(** A call of an external function. *)
Definition io {St A} (f : Ext A) : M St A :=
  fun s w => let (r, w') := f w in (r, s, w').

(** A method call on the attribute read by [get] and written by [put]. *)
Definition zoom {St T A} (get : St -> T) (put : T -> St -> St) (m : M T A) : M St A :=
  fun s w => let '(r, t', w') := m (get s) w in (r, put t' s, w').

(** [try: body / except Exception as e: handler(e) / finally: final].
    The handler takes the exceptions that are instances of [Exception] and
    no others.  The [finally] clause runs whether or not [body] or the
    handler raised, and an exception that is still pending is raised again
    after it. *)
Definition try_except_finally {St A}
    (body : M St A) (handler : exn -> M St A) (final : M St unit) : M St A :=
  fun s w =>
    let '(r, s1, w1) :=
      match body s w with
      | (Raise e, s', w') =>
          if is_Exception e then handler e s' w' else (Raise e, s', w')
      | other => other
      end in
    match r with
    | OutOfFuel => (OutOfFuel, s1, w1)
    | _ =>
        match final s1 w1 with
        | (Ret _, s2, w2) => (r, s2, w2)
        | (Raise e, s2, w2) => (Raise e, s2, w2)
        | (OutOfFuel, s2, w2) => (OutOfFuel, s2, w2)
        end
    end.

(** [print(line)]. *)
Definition print (line : string) : Ext unit :=
  fun w => (Ret tt, log (EvPrint line) w).

(** ** The [time] module *)

Module time.

(** [time.time()]: the next reading of the wall clock. *)
Definition time : Ext Q :=
  fun w =>
    let t := clock (env w) (ticks w) in
    (Ret t, log (EvTime t) (set_ticks (S (ticks w)) w)).

End time.

(** ** OpenCV, as far as the program uses it

    External collaborator: modelled from OpenCV's documented behaviour, not
    from code of this repository. *)

Module cv2.

Definition CAP_PROP_FRAME_WIDTH : Z := 3.
Definition CAP_PROP_FRAME_HEIGHT : Z := 4.
Definition CAP_PROP_FPS : Z := 5.
Definition FONT_HERSHEY_SIMPLEX : Z := 0.

(** A capture handle: the device it was asked for, whether it holds the
    device open, and the property hints given to it. *)
Record Capture : Type := {
  device : Z;
  isOpened : bool;
  props : list (Z * Z)
}.

(** [cv2.VideoCapture(index)]: a handle, open when the device could be
    opened.  The constructor does not raise when it could not. *)
Definition VideoCapture (index : Z) : Ext Capture :=
  fun w =>
    let ok := camera_ok (env w) index in
    (Ret {| device := index; isOpened := ok; props := [] |},
     log (EvOpen index ok)
         (set_held (if ok then S (held w) else held w) w)).

(** [cap.set(prop, value)]: a hint; the answer of the device is ignored by
    the program and not modelled. *)
Definition set (c : Capture) (prop value : Z) : Ext Capture :=
  fun w =>
    (Ret {| device := device c; isOpened := isOpened c;
            props := (prop, value) :: props c |},
     log (EvSet prop value) w).

(** [cap.read()]: [(True, frame)] when the open device delivers a frame,
    [(False, None)] when it does not or when the handle is not open. *)
Definition read (c : Capture) : Ext (bool * option Frame) :=
  fun w =>
    if isOpened c then
      match feed (env w) (reads w) with
      | Some f => (Ret (true, Some f),
                   log (EvGrab true) (set_reads (S (reads w)) w))
      | None => (Ret (false, None),
                 log (EvGrab false) (set_reads (S (reads w)) w))
      end
    else (Ret (false, None), log (EvGrab false) w).

(** [cap.release()]: gives the device back; nothing to do on a handle
    that is not open. *)
Definition release (c : Capture) : Ext Capture :=
  fun w =>
    (Ret {| device := device c; isOpened := false; props := props c |},
     log EvClose (if isOpened c then set_held (Nat.pred (held w)) w else w)).

(** The pixel grid of [cv2.flip]: code [0] flips around the horizontal
    axis (rows reversed), a positive code around the vertical axis (every
    row reversed), a negative code around both. *)
Definition flip_grid (f : Frame) (flipCode : Z) : Frame :=
  match flipCode with
  | Z0 => rev f
  | Zpos _ => map (@rev Pixel) f
  | Zneg _ => rev (map (@rev Pixel) f)
  end.

(** [cv2.flip(src, flipCode)]: a new image; an error on [None]. *)
Definition flip (src : option Frame) (flipCode : Z) : Ext (option Frame) :=
  fun w =>
    match src with
    | Some f => (Ret (Some (flip_grid f flipCode)), w)
    | None => (Raise (cv2_error "flip: empty source"), w)
    end.

(** [cv2.putText(img, text, org, font, scale, color, thickness)]: draws on
    [img] in place; the value given back here is [img] afterwards. *)
Definition putText (img : Frame) (text : string) (org : Z * Z)
    (font scale : Z) (color : Z * Z * Z) (thickness : Z) : Ext Frame :=
  fun w =>
    (Ret (glyphs (env w) img text org font scale color thickness),
     log (EvPutText text org) w).

(** [cv2.namedWindow(name)]. *)
Definition namedWindow (name : string) : Ext unit :=
  fun w =>
    (Ret tt,
     log (EvNamedWindow name)
         (if existsb (String.eqb name) (windows w) then w
          else set_windows (name :: windows w) w)).

(** [cv2.imshow(name, mat)]: an error on [None]; creates the window when
    it does not exist. *)
Definition imshow (name : string) (mat : option Frame) : Ext unit :=
  fun w =>
    match mat with
    | Some f =>
        (Ret tt,
         log (EvImshow name f)
             (if existsb (String.eqb name) (windows w) then w
              else set_windows (name :: windows w) w))
    | None => (Raise (cv2_error "imshow: empty image"), w)
    end.

(** [cv2.waitKey(delay)]: the next answer of the keyboard. *)
Definition waitKey (delay : Z) : Ext Z :=
  fun w =>
    let k := keys (env w) (polls w) in
    (Ret k, log (EvWaitKey delay k) (set_polls (S (polls w)) w)).

(** [cv2.destroyAllWindows()]. *)
Definition destroyAllWindows : Ext unit :=
  fun w => (Ret tt, log EvDestroyAll (set_windows [] w)).

End cv2.

Local Open Scope method_scope.

(** ** class VideoStream *)

Module VideoStream.

Record t : Type := {
  camera_id : Z;
  width : Z;
  height : Z;
  fps : Z;
  cap : option cv2.Capture
}.

Definition set_cap (c : option cv2.Capture) (s : t) : t :=
  {| camera_id := camera_id s; width := width s; height := height s;
     fps := fps s; cap := c |}.

(** [__init__(camera_id, width, height, fps)]. *)
Definition new (camera_id width height fps : Z) : t :=
  {| camera_id := camera_id; width := width; height := height;
     fps := fps; cap := None |}.

(** [start()].  The handle is stored before it is tested, so it stays
    stored when the test fails.  [return self] is the instance left
    behind by the computation. *)
Definition start : M t unit :=
  s <- self ;;
  c <- io (cv2.VideoCapture (camera_id s)) ;;
  assign (set_cap (Some c)) ;;
  if negb (cv2.isOpened c) then
    raise (IOError ("Cannot open camera " ++ str (camera_id s)))
  else
    c <- io (cv2.set c cv2.CAP_PROP_FRAME_WIDTH (width s)) ;;
    assign (set_cap (Some c)) ;;
    c <- io (cv2.set c cv2.CAP_PROP_FRAME_HEIGHT (height s)) ;;
    assign (set_cap (Some c)) ;;
    c <- io (cv2.set c cv2.CAP_PROP_FPS (fps s)) ;;
    assign (set_cap (Some c)) ;;
    ret tt.

(** [read()]: [None] is the no-frame sentinel. *)
Definition read : M t (option Frame) :=
  s <- self ;;
  match cap s with
  | None => raise (RuntimeError "Video stream not started. Call start() first.")
  | Some c =>
      r <- io (cv2.read c) ;;
      let '(ret_, frame) := r in
      if negb ret_ then ret None
      else io (cv2.flip frame 1)
  end.

(** [release()]. *)
Definition release : M t unit :=
  s <- self ;;
  match cap s with
  | Some c =>
      _ <- io (cv2.release c) ;;
      assign (set_cap None)
  | None => ret tt
  end.

End VideoStream.

(** ** class FPSCounter *)

Module FPSCounter.

Record t : Type := {
  prev_time : Q;
  current_time : Q;
  fps : Q
}.

Definition set_prev_time (x : Q) (s : t) : t :=
  {| prev_time := x; current_time := current_time s; fps := fps s |}.

Definition set_current_time (x : Q) (s : t) : t :=
  {| prev_time := prev_time s; current_time := x; fps := fps s |}.

Definition set_fps (x : Q) (s : t) : t :=
  {| prev_time := prev_time s; current_time := current_time s; fps := x |}.

(** [__init__()]. *)
Definition new : t :=
  {| prev_time := 0%Q; current_time := 0%Q; fps := 0%Q |}.

(** [update()]. *)
Definition update : M t Q :=
  now <- io time.time ;;
  assign (set_current_time now) ;;
  s <- self ;;
  let time_diff := (current_time s - prev_time s)%Q in
  (if Qgtb time_diff 0 then assign (set_fps (1 / time_diff)%Q)
   else ret tt) ;;
  s <- self ;;
  assign (set_prev_time (current_time s)) ;;
  s <- self ;;
  ret (fps s).

(** The local [fps_text] of [draw]. *)
Definition fps_text (s : t) : string := "FPS: " ++ str (int (fps s)).

(** [draw(frame)]: the frame given back is the argument, drawn on. *)
Definition draw (frame : Frame) : M t Frame :=
  s <- self ;;
  io (cv2.putText frame (fps_text s) (10, 30)
                  cv2.FONT_HERSHEY_SIMPLEX 1 (0, 255, 0) 2).

End FPSCounter.

(** ** class BoxingStrikeVision *)

Module BoxingStrikeVision.

Record t : Type := {
  video_stream : VideoStream.t;
  fps_counter : FPSCounter.t;
  running : bool;
  window_name : string
}.

Definition set_video_stream (v : VideoStream.t) (s : t) : t :=
  {| video_stream := v; fps_counter := fps_counter s;
     running := running s; window_name := window_name s |}.

Definition set_fps_counter (c : FPSCounter.t) (s : t) : t :=
  {| video_stream := video_stream s; fps_counter := c;
     running := running s; window_name := window_name s |}.

Definition set_running (b : bool) (s : t) : t :=
  {| video_stream := video_stream s; fps_counter := fps_counter s;
     running := b; window_name := window_name s |}.

(** A method call on [self.video_stream]. *)
Definition on_video_stream {A} (m : M VideoStream.t A) : M t A :=
  zoom video_stream set_video_stream m.

(** A method call on [self.fps_counter]. *)
Definition on_fps_counter {A} (m : M FPSCounter.t A) : M t A :=
  zoom fps_counter set_fps_counter m.

(** [__init__(camera_id, width, height, fps)]. *)
Definition new (camera_id width height fps : Z) : t :=
  {| video_stream := VideoStream.new camera_id width height fps;
     fps_counter := FPSCounter.new;
     running := false;
     window_name := "PunchTracker" |}.

Definition startup_notice : string :=
  "PunchTracker initialized. Press 'q' to quit.".

Definition failure_notice : string := "Failed to grab frame. Exiting...".

Definition shutdown_notice : string :=
  "BoxingStrikeVision shutdown complete.".

(** [setup()]. *)
Definition setup : M t unit :=
  on_video_stream VideoStream.start ;;
  s <- self ;;
  io (cv2.namedWindow (window_name s)) ;;
  io (print startup_notice) ;;
  ret tt.

(** [process_frame(frame)]. *)
Definition process_frame (frame : option Frame) : M t (option Frame) :=
  match frame with
  | None => ret None
  | Some f =>
      _ <- on_fps_counter FPSCounter.update ;;
      f <- on_fps_counter (FPSCounter.draw f) ;;
      ret (Some f)
  end.

(** The [while self.running:] loop of [run()].  One unit of fuel pays for
    one evaluation of the loop condition. *)
Fixpoint loop (fuel : nat) : M t unit :=
  match fuel with
  | O => out_of_fuel
  | S fuel' =>
      s <- self ;;
      if running s then
        frame <- on_video_stream VideoStream.read ;;
        match frame with
        | None => io (print failure_notice)
        | Some _ =>
            processed_frame <- process_frame frame ;;
            io (cv2.imshow (window_name s) processed_frame) ;;
            k <- io (cv2.waitKey 1) ;;
            let key := Z.land k 0xFF in
            (if Z.eqb key (ord "q") then assign (set_running false)
             else ret tt) ;;
            loop fuel'
        end
      else ret tt
  end.

(** [run()]. *)
Definition run (fuel : nat) : M t unit :=
  assign (set_running true) ;;
  loop fuel.

(** [cleanup()]. *)
Definition cleanup : M t unit :=
  on_video_stream VideoStream.release ;;
  io cv2.destroyAllWindows ;;
  io (print shutdown_notice).

End BoxingStrikeVision.

(** ** main *)

(** The [try] statement of [main()], on the tracker it has just built. *)
Definition main_body (fuel : nat) : M BoxingStrikeVision.t unit :=
  try_except_finally
    (BoxingStrikeVision.setup ;; BoxingStrikeVision.run fuel)
    (fun e => io (print ("Error: " ++ str_exn e)))
    BoxingStrikeVision.cleanup.

(** [main()]: the outcome, the tracker as it is left, and the world. *)
Definition main (fuel : nat) (w : World)
  : outcome unit * BoxingStrikeVision.t * World :=
  let tracker := BoxingStrikeVision.new 0 640 480 30 in
  main_body fuel tracker w.

(** ** Repeated calls and sample worlds *)

(** [n] consecutive calls of the same method, results dropped. *)
Fixpoint repeat_call {St A} (n : nat) (m : M St A) : M St unit :=
  match n with
  | O => ret tt
  | S k => _ <- m ;; repeat_call k m
  end.

(** A call of one of the two methods of the Rate Monitor. *)
Inductive counter_call : Type :=
| Update
| Draw (frame : Frame).

(** A history of calls on one Rate Monitor, oldest first. *)
Fixpoint counter_calls (cs : list counter_call) : M FPSCounter.t unit :=
  match cs with
  | [] => ret tt
  | Update :: cs' => _ <- FPSCounter.update ;; counter_calls cs'
  | Draw frame :: cs' => _ <- FPSCounter.draw frame ;; counter_calls cs'
  end.

(** Is the trace segment [tr] (most recent call first) made of exactly [n]
    full loop iterations: a successful grab, a clock reading, a text
    overlay, a frame presentation and a keyboard poll, in this order, and
    nothing else? *)
Fixpoint full_iterations (n : nat) (tr : list event) : bool :=
  match n, tr with
  | O, [] => true
  | S n', EvWaitKey _ _ :: EvImshow _ _ :: EvPutText _ _ :: EvTime _
            :: EvGrab true :: tr' => full_iterations n' tr'
  | _, _ => false
  end.

(** The quit test of the loop on a keyboard answer. *)
Definition quits (k : Z) : bool := Z.eqb (Z.land k 0xFF) (ord "q").

(** The external calls of a successful [setup()] in [main()], most recent
    first. *)
Definition setup_trace : list event :=
  [EvPrint BoxingStrikeVision.startup_notice;
   EvNamedWindow "PunchTracker";
   EvSet cv2.CAP_PROP_FPS 30;
   EvSet cv2.CAP_PROP_FRAME_HEIGHT 480;
   EvSet cv2.CAP_PROP_FRAME_WIDTH 640;
   EvOpen 0 true].

(** The external calls of [cleanup()] on a tracker whose stream holds a
    handle, most recent first. *)
Definition cleanup_trace : list event :=
  [EvPrint BoxingStrikeVision.shutdown_notice; EvDestroyAll; EvClose].

(** The tracker [main()] builds. *)
Definition fresh_tracker : BoxingStrikeVision.t :=
  BoxingStrikeVision.new 0 640 480 30.

(** The part of the world the loop is followed through: [w'] is [w] after
    [dr] grabs, [dt] clock readings and [dp] keyboard polls that left the
    calls [evs] in the trace and opened or closed no device. *)
Definition extends (w w' : World) (dr dt dp : nat) (evs : list event) : Prop :=
  env w' = env w /\
  reads w' = (reads w + dr)%nat /\
  ticks w' = (ticks w + dt)%nat /\
  polls w' = (polls w + dp)%nat /\
  held w' = held w /\
  trace w' = evs ++ trace w.

(** Peeling one call off a trace segment that is known to be made of full
    iterations. *)
Ltac peel_event H tr :=
  let ev := fresh "ev" in
  destruct tr as [|ev tr]; [discriminate H|];
  destruct ev; try discriminate H.

(** A two-by-three frame with six different pixels. *)
Definition sample_frame : Frame :=
  [[(Byte.x00, Byte.x00, Byte.x01); (Byte.x00, Byte.x00, Byte.x02);
    (Byte.x00, Byte.x00, Byte.x03)];
   [(Byte.x00, Byte.x01, Byte.x01); (Byte.x00, Byte.x01, Byte.x02);
    (Byte.x00, Byte.x01, Byte.x03)]].

(** A test bench: a camera that is present or not and delivers
    [sample_frame] for its first [frames] grabs, a clock that starts at
    1000 s and advances by 1/30 s per reading, a keyboard on which [q] is
    down at poll number [quit_poll] (counted from zero) and at no other, and
    a rasteriser that draws nothing. *)
Definition bench (present : bool) (frames quit_poll : nat) : Env :=
  {| camera_ok := fun _ => present;
     feed := fun n => if Nat.ltb n frames then Some sample_frame else None;
     clock := fun n => (1000 + Z.of_nat n # 30)%Q;
     keys := fun n => if Nat.eqb n quit_poll then ord "q" else (-1);
     glyphs := fun f _ _ _ _ _ _ => f |}.

(** A stream as [__init__] leaves it, with the defaults of the program. *)
Definition fresh_stream : VideoStream.t := VideoStream.new 0 640 480 30.

(** The state a computation leaves behind. *)
Definition state_of {St A} (r : outcome A * St * World) : St := snd (fst r).

(** The world a computation leaves behind. *)
Definition world_of {St A} (r : outcome A * St * World) : World := snd r.

(** The outcome of a computation. *)
Definition outcome_of {St A} (r : outcome A * St * World) : outcome A :=
  fst (fst r).

(** The stream and the world after [start()] on a fresh stream. *)
Definition started_stream (e : Env) : VideoStream.t :=
  state_of (VideoStream.start fresh_stream (boot e)).

Definition started_world (e : Env) : World :=
  world_of (VideoStream.start fresh_stream (boot e)).

(** The external calls of the iteration on which the device delivers
    nothing, most recent first. *)
Definition failure_tail : list event :=
  [EvPrint BoxingStrikeVision.failure_notice; EvGrab false].

(** The external calls of a successful [start()] on a stream, most recent
    first. *)
Definition start_trace (s : VideoStream.t) : list event :=
  [EvSet cv2.CAP_PROP_FPS (VideoStream.fps s);
   EvSet cv2.CAP_PROP_FRAME_HEIGHT (VideoStream.height s);
   EvSet cv2.CAP_PROP_FRAME_WIDTH (VideoStream.width s);
   EvOpen (VideoStream.camera_id s) true].

Definition is_grab_ok (ev : event) : bool :=
  match ev with EvGrab true => true | _ => false end.

(** The update of the Rate Monitor in the words of the specification,
    written without the code: the clock reading becomes the stored
    timestamp, and the rate becomes the reciprocal of the elapsed time when
    that is strictly positive and stays what it was otherwise. *)
Definition spec_update (now : Q) (s : FPSCounter.t) : FPSCounter.t :=
  let elapsed := (now - FPSCounter.prev_time s)%Q in
  {| FPSCounter.prev_time := now;
     FPSCounter.current_time := now;
     FPSCounter.fps :=
       if Qgtb elapsed 0 then (1 / elapsed)%Q else FPSCounter.fps s |}.

(** The Rate Monitor of the specification after [k] updates, made at the
    first [k] readings of the clock of [e]. *)
Fixpoint spec_counter (e : Env) (k : nat) : FPSCounter.t :=
  match k with
  | O => FPSCounter.new
  | S k' => spec_update (clock e k') (spec_counter e k')
  end.

(** The overlay text of iteration [k + 1]: the rate after [k + 1] updates. *)
Definition overlay_text (e : Env) (k : nat) : string :=
  "FPS: " ++ str (int (FPSCounter.fps (spec_counter e (S k)))).

(** The external calls of iteration [k + 1] of a run that started with the
    world at process start, most recent first: grab number [k], clock
    reading number [k], the overlay, the presentation in window [name] of
    the overlay drawn on the mirrored frame, and poll number [k]. *)
Definition iteration_trace (e : Env) (name : string) (k : nat) : list event :=
  let raw := match feed e k with Some f => f | None => [] end in
  [EvWaitKey 1 (keys e k);
   EvImshow name
     (glyphs e (cv2.flip_grid raw 1) (overlay_text e k) (10, 30)
             cv2.FONT_HERSHEY_SIMPLEX 1 (0, 255, 0) 2);
   EvPutText (overlay_text e k) (10, 30);
   EvTime (clock e k);
   EvGrab true].

(** The external calls of the first [n] iterations, most recent first. *)
Fixpoint iterations_trace (e : Env) (name : string) (n : nat) : list event :=
  match n with
  | O => []
  | S k => iteration_trace e name k ++ iterations_trace e name k
  end.

(** * Properties *)

(** ** Rate Monitor: one update *)

Lemma Qgtb_true (a b : Q) : Qgtb a b = true <-> (b < a)%Q.
Proof.
  unfold Qgtb. split.
  - intros H. apply (proj2 (Qgt_alt a b)). destruct (a ?= b)%Q; congruence.
  - intros H. apply (proj1 (Qgt_alt a b)) in H. now rewrite H.
Qed.

Lemma Qgtb_false (a b : Q) : Qgtb a b = false <-> (a <= b)%Q.
Proof.
  unfold Qgtb. rewrite Qle_alt.
  destruct (a ?= b)%Q; split; congruence.
Qed.

(** What [update()] does, by the sign test of the source. *)
Lemma update_eq (s : FPSCounter.t) (w : World) :
  let now := clock (env w) (ticks w) in
  let d := (now - FPSCounter.prev_time s)%Q in
  let rate := if Qgtb d 0 then (1 / d)%Q else FPSCounter.fps s in
  FPSCounter.update s w =
    (Ret rate,
     {| FPSCounter.prev_time := now; FPSCounter.current_time := now;
        FPSCounter.fps := rate |},
     log (EvTime now) (set_ticks (S (ticks w)) w)).
Proof.
  cbv zeta. unfold FPSCounter.update, bind, io, time.time, assign, self, ret.
  cbn. destruct (Qgtb _ 0); reflexivity.
Qed.

(** C1: [update()] sets the rate to [1/d] when the elapsed time [d] is
    strictly positive, leaves it as it was when [d] is zero, and in both
    cases moves the previous timestamp to the current one and returns the
    rate it has just stored. *)
Theorem update_rate (s : FPSCounter.t) (w : World) :
  let now := clock (env w) (ticks w) in
  let d := (now - FPSCounter.prev_time s)%Q in
  exists s' w',
    FPSCounter.update s w = (Ret (FPSCounter.fps s'), s', w') /\
    ((0 < d)%Q -> FPSCounter.fps s' = (1 / d)%Q) /\
    ((d == 0)%Q -> FPSCounter.fps s' = FPSCounter.fps s) /\
    FPSCounter.prev_time s' = now /\
    FPSCounter.current_time s' = now.
Proof.
  intros now d. pose proof (update_eq s w) as E. cbv zeta in E.
  fold now in E. fold d in E.
  exists {| FPSCounter.prev_time := now; FPSCounter.current_time := now;
            FPSCounter.fps := if Qgtb d 0 then (1 / d)%Q
                              else FPSCounter.fps s |}.
  exists (log (EvTime now) (set_ticks (S (ticks w)) w)).
  split; [exact E|]. cbn.
  repeat split.
  - intros Hd. apply Qgtb_true in Hd. now rewrite Hd.
  - intros Hd. assert (Qgtb d 0 = false) as ->; [|reflexivity].
    apply Qgtb_false. rewrite Hd. apply Qle_refl.
Qed.

(** ** Capture Source: reading *)

(** [read()] on a stream whose handle is unset. *)
Lemma read_unset (s : VideoStream.t) (w : World) :
  VideoStream.cap s = None ->
  VideoStream.read s w =
    (Raise (RuntimeError "Video stream not started. Call start() first."),
     s, w).
Proof.
  intros H. unfold VideoStream.read, bind, self. now rewrite H.
Qed.

(** [read()] on a stream whose handle is set: three cases, none raising. *)
Lemma read_set (s : VideoStream.t) (w : World) (c : cv2.Capture) :
  VideoStream.cap s = Some c ->
  VideoStream.read s w =
    if cv2.isOpened c then
      match feed (env w) (reads w) with
      | Some raw =>
          (Ret (Some (cv2.flip_grid raw 1)), s,
           log (EvGrab true) (set_reads (S (reads w)) w))
      | None =>
          (Ret None, s, log (EvGrab false) (set_reads (S (reads w)) w))
      end
    else (Ret None, s, log (EvGrab false) w).
Proof.
  intros H. unfold VideoStream.read, bind, self, io, cv2.read. rewrite H.
  destruct (cv2.isOpened c); [|reflexivity].
  destruct (feed (env w) (reads w)); reflexivity.
Qed.

(** The horizontal flip keeps the shape of the grid. *)
Lemma flip_grid_1_height (f : Frame) :
  frame_height (cv2.flip_grid f 1) = frame_height f.
Proof. unfold frame_height. cbn. apply length_map. Qed.

Lemma flip_grid_1_width (f : Frame) :
  frame_width (cv2.flip_grid f 1) = frame_width f.
Proof. destruct f as [|row f]; cbn; [reflexivity|apply length_rev]. Qed.

(** Every row of a rectangular grid has the width of the grid. *)
Lemma rectangular_row (f : Frame) (r : nat) (row : list Pixel) :
  rectangular f = true -> nth_error f r = Some row ->
  length row = frame_width f.
Proof.
  unfold rectangular. intros Hrect Hrow.
  rewrite forallb_forall in Hrect.
  apply Nat.eqb_eq, Hrect. eapply nth_error_In; eassumption.
Qed.

(** The horizontal flip, pixel by pixel. *)
Lemma flip_grid_1_pixel (f : Frame) (r x : nat) :
  rectangular f = true ->
  (r < frame_height f)%nat -> (x < frame_width f)%nat ->
  pixel (cv2.flip_grid f 1) r x = pixel f r (frame_width f - 1 - x) /\
  pixel (cv2.flip_grid f 1) r x <> None.
Proof.
  intros Hrect Hr Hx. unfold pixel. cbn.
  rewrite nth_error_map.
  destruct (nth_error f r) as [row|] eqn:Hrow.
  - cbn. pose proof (rectangular_row f r row Hrect Hrow) as Hlen.
    rewrite nth_error_rev, Hlen.
    apply Nat.ltb_lt in Hx as Hx'. rewrite Hx'.
    replace (frame_width f - S x)%nat with (frame_width f - 1 - x)%nat by lia.
    split; [reflexivity|].
    apply nth_error_Some. lia.
  - apply nth_error_None in Hrow. unfold frame_height in Hr. lia.
Qed.

(** C2: when the open device delivers a raw frame, [read()] returns a frame
    of the same shape whose pixel at column [x] of every row is the raw
    pixel at column [width - 1 - x] of that row. *)
Theorem read_mirror (s : VideoStream.t) (w : World) (c : cv2.Capture)
    (raw : Frame) :
  VideoStream.cap s = Some c ->
  cv2.isOpened c = true ->
  feed (env w) (reads w) = Some raw ->
  rectangular raw = true ->
  exists out w',
    VideoStream.read s w = (Ret (Some out), s, w') /\
    frame_height out = frame_height raw /\
    frame_width out = frame_width raw /\
    forall r x, (r < frame_height raw)%nat -> (x < frame_width raw)%nat ->
      pixel out r x = pixel raw r (frame_width raw - 1 - x) /\
      pixel out r x <> None.
Proof.
  intros Hcap Hopen Hfeed Hrect.
  exists (cv2.flip_grid raw 1).
  exists (log (EvGrab true) (set_reads (S (reads w)) w)).
  split.
  - rewrite (read_set s w c Hcap), Hopen, Hfeed. reflexivity.
  - split; [apply flip_grid_1_height|].
    split; [apply flip_grid_1_width|].
    intros r x Hr Hx. now apply flip_grid_1_pixel.
Qed.

Lemma read_mirror_witness :
  exists out w',
    VideoStream.read (started_stream (bench true 1 9))
                     (started_world (bench true 1 9))
      = (Ret (Some out), started_stream (bench true 1 9), w') /\
    frame_height out = 2%nat /\
    frame_width out = 3%nat /\
    pixel out 1 0 = Some (Byte.x00, Byte.x01, Byte.x03).
Proof.
  destruct (read_mirror (started_stream (bench true 1 9))
              (started_world (bench true 1 9))
              {| cv2.device := 0; cv2.isOpened := true;
                 cv2.props := [(5, 30); (4, 480); (3, 640)] |}
              sample_frame)
    as (out & w' & Hread & Hh & Hw & Hpix);
    [reflexivity | reflexivity | reflexivity | reflexivity |].
  exists out, w'. split; [exact Hread|].
  split; [exact Hh|]. split; [exact Hw|].
  destruct (Hpix 1%nat 0%nat) as [Hp _]; [cbn; lia | cbn; lia |].
  rewrite Hp. reflexivity.
Defined.

(** C5: with a handle stored, [read()] never raises: it returns a value,
    and that value is the no-frame sentinel whenever the device delivers
    nothing (or the handle is not open). *)
Theorem read_sentinel_no_error (s : VideoStream.t) (w : World)
    (c : cv2.Capture) :
  VideoStream.cap s = Some c ->
  exists r w',
    VideoStream.read s w = (Ret r, s, w') /\
    (feed (env w) (reads w) = None \/ cv2.isOpened c = false -> r = None).
Proof.
  intros Hcap. rewrite (read_set s w c Hcap).
  destruct (cv2.isOpened c).
  - destruct (feed (env w) (reads w)) as [raw|].
    + eexists. eexists. split; [reflexivity|].
      intros [H|H]; discriminate H.
    + eexists. eexists. split; [reflexivity|]. reflexivity.
  - eexists. eexists. split; [reflexivity|]. reflexivity.
Qed.

Lemma read_sentinel_no_error_witness :
  exists w',
    VideoStream.read (started_stream (bench true 0 9))
                     (started_world (bench true 0 9))
      = (Ret None, started_stream (bench true 0 9), w').
Proof.
  destruct (read_sentinel_no_error (started_stream (bench true 0 9))
              (started_world (bench true 0 9))
              {| cv2.device := 0; cv2.isOpened := true;
                 cv2.props := [(5, 30); (4, 480); (3, 640)] |})
    as (r & w' & Hread & Hnone); [reflexivity|].
  exists w'. rewrite Hread, Hnone; [reflexivity|]. left. reflexivity.
Defined.

(** C3, as amended: while the handle is unset, as it is from construction
    until [start()] is called and again after [release()], [read()] raises
    [RuntimeError], returns nothing, and changes neither the stream nor the
    world. *)
Theorem read_before_start (s : VideoStream.t) (w : World) :
  VideoStream.cap s = None ->
  VideoStream.read s w =
    (Raise (RuntimeError "Video stream not started. Call start() first."),
     s, w) /\
  forall r, outcome_of (VideoStream.read s w) <> Ret r.
Proof.
  intros H. rewrite (read_unset s w H). split; [reflexivity|].
  intros r. discriminate.
Qed.

Lemma read_before_start_witness :
  outcome_of (VideoStream.read fresh_stream (boot (bench true 3 9))) =
    Raise (RuntimeError "Video stream not started. Call start() first.").
Proof.
  destruct (read_before_start fresh_stream (boot (bench true 3 9)))
    as [Hread _]; [reflexivity|].
  rewrite Hread. reflexivity.
Defined.

(** C3, the counterexample: with no camera to open, [start()] on a fresh
    stream fails with [IOError], yet the [read()] that follows does not
    raise [RuntimeError]: it returns the no-frame sentinel, because the
    unopened handle was stored before the failure. *)
Lemma read_after_failed_start :
  outcome_of (VideoStream.start fresh_stream (boot (bench false 3 9))) =
    Raise (IOError "Cannot open camera 0") /\
  VideoStream.cap (started_stream (bench false 3 9)) <> None /\
  outcome_of (VideoStream.read (started_stream (bench false 3 9))
                               (started_world (bench false 3 9))) =
    Ret None /\
  forall msg,
    outcome_of (VideoStream.read (started_stream (bench false 3 9))
                                 (started_world (bench false 3 9))) <>
    Raise (RuntimeError msg).
Proof.
  split; [reflexivity|]. split; [discriminate|]. split; [reflexivity|].
  intros msg. discriminate.
Qed.

(** ** Capture Source: releasing *)

(** What [release()] does. *)
Lemma release_eq (s : VideoStream.t) (w : World) :
  VideoStream.release s w =
    match VideoStream.cap s with
    | Some c =>
        (Ret tt, VideoStream.set_cap None s,
         log EvClose
             (if cv2.isOpened c then set_held (Nat.pred (held w)) w else w))
    | None => (Ret tt, s, w)
    end.
Proof.
  unfold VideoStream.release, bind, self.
  destruct (VideoStream.cap s); reflexivity.
Qed.

(** After [release()] the stream is the one [__init__] builds from the
    same configuration. *)
Lemma release_state (s : VideoStream.t) (w : World) :
  state_of (VideoStream.release s w) =
    VideoStream.new (VideoStream.camera_id s) (VideoStream.width s)
                    (VideoStream.height s) (VideoStream.fps s).
Proof.
  rewrite release_eq. destruct s as [i wd ht f [c|]]; reflexivity.
Qed.

(** Any number of [release()] calls on a stream whose handle is unset does
    nothing at all. *)
Lemma repeat_release_unset (n : nat) (s : VideoStream.t) (w : World) :
  VideoStream.cap s = None ->
  repeat_call n VideoStream.release s w = (Ret tt, s, w).
Proof.
  intros H. induction n as [|n IH]; [reflexivity|].
  cbn [repeat_call]. unfold bind at 1. rewrite release_eq, H. exact IH.
Qed.

(** C4, as amended: no [release()] call fails, whatever the stream and
    however often it is called; after at least one call, or after none on a
    stream whose handle was unset to begin with, the handle is unset; and a
    second [release()] right after a first changes neither the stream nor
    the world. *)
Theorem release_any_number (s : VideoStream.t) (w : World) (n : nat) :
  (exists s' w',
     repeat_call n VideoStream.release s w = (Ret tt, s', w') /\
     ((0 < n)%nat \/ VideoStream.cap s = None -> VideoStream.cap s' = None)) /\
  (exists s1 w1,
     VideoStream.release s w = (Ret tt, s1, w1) /\
     VideoStream.cap s1 = None /\
     VideoStream.release s1 w1 = (Ret tt, s1, w1)).
Proof.
  assert (exists s1 w1,
             VideoStream.release s w = (Ret tt, s1, w1) /\
             VideoStream.cap s1 = None) as (s1 & w1 & Hrel & Hcap).
  { rewrite release_eq. destruct (VideoStream.cap s) as [c|] eqn:Hc.
    - eexists. eexists. split; reflexivity.
    - exists s, w. split; [reflexivity|exact Hc]. }
  split.
  - destruct n as [|n].
    + exists s, w. split; [reflexivity|].
      intros [H|H]; [inversion H|exact H].
    + exists s1, w1. split; [|intros _; exact Hcap].
      cbn [repeat_call]. unfold bind at 1. rewrite Hrel.
      now apply repeat_release_unset.
  - exists s1, w1. split; [exact Hrel|]. split; [exact Hcap|].
    rewrite release_eq, Hcap. reflexivity.
Qed.

(** C4, the counterexample: on a stream that [start()] has just started,
    zero [release()] calls fail in nothing and leave the handle set. *)
Lemma zero_releases_keep_handle :
  outcome_of (VideoStream.start fresh_stream (boot (bench true 3 9))) =
    Ret tt /\
  repeat_call 0 VideoStream.release (started_stream (bench true 3 9))
              (started_world (bench true 3 9)) =
    (Ret tt, started_stream (bench true 3 9),
     started_world (bench true 3 9)) /\
  VideoStream.cap (started_stream (bench true 3 9)) <> None.
Proof.
  split; [reflexivity|]. split; [reflexivity|discriminate].
Qed.

(** C10: [release()] takes any stream, a started one included, back to the
    state [__init__] builds from the same configuration, and the [read()]
    that follows raises the [RuntimeError] a never-started stream raises. *)
Theorem read_after_release (s : VideoStream.t) (w : World) :
  exists s1 w1,
    VideoStream.release s w = (Ret tt, s1, w1) /\
    s1 = VideoStream.new (VideoStream.camera_id s) (VideoStream.width s)
                         (VideoStream.height s) (VideoStream.fps s) /\
    VideoStream.read s1 w1 =
      (Raise (RuntimeError "Video stream not started. Call start() first."),
       s1, w1) /\
    forall w0,
      outcome_of (VideoStream.read s1 w1) =
      outcome_of (VideoStream.read
                    (VideoStream.new (VideoStream.camera_id s)
                       (VideoStream.width s) (VideoStream.height s)
                       (VideoStream.fps s)) w0).
Proof.
  pose proof (release_state s w) as Hst.
  destruct (VideoStream.release s w) as [[r s1] w1] eqn:Hrel.
  assert (r = Ret tt) as ->.
  { rewrite release_eq in Hrel.
    destruct (VideoStream.cap s); inversion Hrel; reflexivity. }
  unfold state_of in Hst. cbn in Hst.
  exists s1, w1. split; [reflexivity|]. split; [exact Hst|].
  assert (VideoStream.cap s1 = None) as Hcap by (rewrite Hst; reflexivity).
  split; [now apply read_unset|].
  intros w0. rewrite (read_unset s1 w1 Hcap), read_unset; reflexivity.
Qed.

(** ** Rate Monitor: the rate is never negative *)

(** What [draw(frame)] does. *)
Lemma draw_eq (frame : Frame) (s : FPSCounter.t) (w : World) :
  FPSCounter.draw frame s w =
    (Ret (glyphs (env w) frame (FPSCounter.fps_text s) (10, 30)
            cv2.FONT_HERSHEY_SIMPLEX 1 (0, 255, 0) 2),
     s, log (EvPutText (FPSCounter.fps_text s) (10, 30)) w).
Proof. reflexivity. Qed.

(** The reciprocal of a positive elapsed time is not negative. *)
Lemma rate_of_positive (d : Q) : (0 < d)%Q -> (0 <= 1 / d)%Q.
Proof.
  intros Hd. unfold Qdiv. rewrite Qmult_1_l.
  apply Qinv_le_0_compat, Qlt_le_weak, Hd.
Qed.

(** On a rate that is not negative, truncation is the floor. *)
Lemma int_floor (x : Q) : (0 <= x)%Q -> int x = Qfloor x.
Proof.
  destruct x as [n d]. unfold Qle, int, Qfloor. cbn. intros H.
  apply Z.quot_div_nonneg; lia.
Qed.

(** One [update()] keeps a rate that is not negative so. *)
Lemma update_nonneg (s : FPSCounter.t) (w : World) :
  (0 <= FPSCounter.fps s)%Q ->
  (0 <= FPSCounter.fps (state_of (FPSCounter.update s w)))%Q.
Proof.
  intros H. rewrite update_eq. cbv zeta. unfold state_of. cbn.
  destruct (Qgtb _ 0) eqn:E; [|exact H].
  apply rate_of_positive, Qgtb_true, E.
Qed.

(** So does every history of calls. *)
Lemma counter_calls_nonneg (cs : list counter_call) :
  forall (s : FPSCounter.t) (w : World),
    (0 <= FPSCounter.fps s)%Q ->
    (0 <= FPSCounter.fps (state_of (counter_calls cs s w)))%Q.
Proof.
  induction cs as [|[|frame] cs IH]; intros s w H.
  - exact H.
  - cbn [counter_calls]. unfold bind at 1.
    pose proof (update_nonneg s w H) as H'.
    rewrite update_eq in *. cbv zeta in *. apply IH. exact H'.
  - cbn [counter_calls]. unfold bind at 1. rewrite draw_eq. apply IH, H.
Qed.

(** C9: the rate starts at zero; one [update()] either leaves it as it was
    or stores [1/d] for a strictly positive [d]; so after every history of
    [update()] and [draw()] calls on a new Rate Monitor the rate is not
    negative, its truncation is its floor, and the text [draw()] hands to
    the rasteriser is "FPS: " followed by that floor. *)
Theorem rate_never_negative :
  FPSCounter.fps FPSCounter.new = 0%Q /\
  (forall (s : FPSCounter.t) (w : World),
     let d := (clock (env w) (ticks w) - FPSCounter.prev_time s)%Q in
     let s' := state_of (FPSCounter.update s w) in
     FPSCounter.fps s' = FPSCounter.fps s \/
     ((0 < d)%Q /\ FPSCounter.fps s' = (1 / d)%Q)) /\
  (forall (cs : list counter_call) (w : World),
     let s := state_of (counter_calls cs FPSCounter.new w) in
     (0 <= FPSCounter.fps s)%Q /\
     int (FPSCounter.fps s) = Qfloor (FPSCounter.fps s) /\
     forall (frame : Frame) (w1 : World),
       world_of (FPSCounter.draw frame s w1) =
         log (EvPutText ("FPS: " ++ str (Qfloor (FPSCounter.fps s))) (10, 30))
             w1 /\
       state_of (FPSCounter.draw frame s w1) = s).
Proof.
  split; [reflexivity|]. split.
  - intros s w d s'. subst s'. rewrite update_eq. cbv zeta.
    unfold state_of. cbn. fold d.
    destruct (Qgtb d 0) eqn:E.
    + right. split; [apply Qgtb_true, E|reflexivity].
    + left. reflexivity.
  - intros cs w s.
    assert (0 <= FPSCounter.fps s)%Q as Hs.
    { apply counter_calls_nonneg. cbn. apply Qle_refl. }
    split; [exact Hs|]. split; [apply int_floor, Hs|].
    intros frame w1. rewrite draw_eq. unfold world_of, state_of. cbn.
    unfold FPSCounter.fps_text. rewrite (int_floor _ Hs).
    split; reflexivity.
Qed.

(** ** Session Coordinator: the loop *)

Lemma extends_trans (w w1 w2 : World) (dr dt dp dr' dt' dp' : nat)
    (evs evs' : list event) :
  extends w w1 dr dt dp evs -> extends w1 w2 dr' dt' dp' evs' ->
  extends w w2 (dr + dr') (dt + dt') (dp + dp') (evs' ++ evs).
Proof.
  intros (E1 & R1 & T1 & P1 & H1 & Tr1) (E2 & R2 & T2 & P2 & H2 & Tr2).
  unfold extends. rewrite E2, R2, T2, P2, H2, Tr2, E1, R1, T1, P1, H1, Tr1.
  rewrite <- app_assoc. repeat split; lia.
Qed.

(** One iteration of the loop on a running tracker with an open handle,
    when the device delivers a frame: the frame is processed, shown, the
    keyboard polled, and the loop goes on with a tracker that is running
    unless the quit key was seen. *)
Lemma loop_step (fuel : nat) (t : BoxingStrikeVision.t) (w : World)
    (c : cv2.Capture) (raw : Frame) :
  BoxingStrikeVision.running t = true ->
  VideoStream.cap (BoxingStrikeVision.video_stream t) = Some c ->
  cv2.isOpened c = true ->
  feed (env w) (reads w) = Some raw ->
  exists t' w' evs,
    BoxingStrikeVision.loop (S fuel) t w =
      BoxingStrikeVision.loop fuel t' w' /\
    BoxingStrikeVision.video_stream t' = BoxingStrikeVision.video_stream t /\
    BoxingStrikeVision.window_name t' = BoxingStrikeVision.window_name t /\
    BoxingStrikeVision.running t' = negb (quits (keys (env w) (polls w))) /\
    extends w w' 1 1 1 evs /\
    full_iterations 1 evs = true.
Proof.
  intros Hrun Hcap Hopen Hfeed.
  cbn [BoxingStrikeVision.loop].
  unfold bind at 1. unfold self at 1. rewrite Hrun.
  unfold bind at 1. unfold BoxingStrikeVision.on_video_stream, zoom.
  rewrite (read_set _ w c Hcap), Hopen, Hfeed.
  unfold bind at 1. unfold BoxingStrikeVision.process_frame.
  unfold bind at 1. unfold BoxingStrikeVision.on_fps_counter at 1, zoom.
  rewrite update_eq. cbv zeta.
  unfold bind at 1. unfold BoxingStrikeVision.on_fps_counter at 1, zoom.
  rewrite draw_eq. unfold ret at 1.
  unfold bind at 1. unfold io at 1, cv2.imshow.
  unfold bind at 1. unfold io at 1, cv2.waitKey.
  unfold bind at 1.
  cbn [env reads ticks polls held trace windows log set_reads set_ticks
       set_polls set_windows].
  destruct (existsb _ (windows w)) eqn:Hwin;
    cbn [env reads ticks polls held trace windows log set_reads set_ticks
         set_polls set_windows];
    unfold quits;
    destruct (Z.eqb (Z.land (keys (env w) (polls w)) 255) (ord "q"));
    unfold assign, ret;
    (eexists; eexists; eexists; split; [reflexivity|]);
    unfold extends;
    cbn [env reads ticks polls held trace windows log set_reads set_ticks
         set_polls set_windows BoxingStrikeVision.video_stream
         BoxingStrikeVision.window_name BoxingStrikeVision.running
         BoxingStrikeVision.set_running BoxingStrikeVision.set_fps_counter
         BoxingStrikeVision.set_video_stream negb].
  all: repeat split; try lia; try exact Hrun.
  all: try match goal with
           | |- ?a :: ?b :: ?c :: ?d :: ?e :: ?tl = _ ++ ?tl =>
               exact (eq_refl ([a; b; c; d; e] ++ tl))
           end.
  all: reflexivity.
Qed.

(** The iteration on which the device delivers nothing: the failure notice
    is printed and the loop is left, with nothing processed, shown or
    polled. *)
Lemma loop_step_fail (fuel : nat) (t : BoxingStrikeVision.t) (w : World)
    (c : cv2.Capture) :
  BoxingStrikeVision.running t = true ->
  VideoStream.cap (BoxingStrikeVision.video_stream t) = Some c ->
  cv2.isOpened c = true ->
  feed (env w) (reads w) = None ->
  exists t',
    BoxingStrikeVision.loop (S fuel) t w =
      (Ret tt, t',
       log (EvPrint BoxingStrikeVision.failure_notice)
           (log (EvGrab false) (set_reads (S (reads w)) w))) /\
    BoxingStrikeVision.video_stream t' = BoxingStrikeVision.video_stream t.
Proof.
  intros Hrun Hcap Hopen Hfeed.
  cbn [BoxingStrikeVision.loop].
  unfold bind at 1. unfold self at 1. rewrite Hrun.
  unfold bind at 1. unfold BoxingStrikeVision.on_video_stream, zoom.
  rewrite (read_set _ w c Hcap), Hopen, Hfeed.
  eexists. split; reflexivity.
Qed.

(** The loop condition on a tracker that is no longer running. *)
Lemma loop_stopped (fuel : nat) (t : BoxingStrikeVision.t) (w : World) :
  BoxingStrikeVision.running t = false ->
  BoxingStrikeVision.loop (S fuel) t w = (Ret tt, t, w).
Proof.
  intros Hrun. cbn [BoxingStrikeVision.loop].
  unfold bind, self. now rewrite Hrun.
Qed.

(** Full iterations followed (earlier in time) by full iterations. *)
Lemma full_iterations_app (n m : nat) (a b : list event) :
  full_iterations n a = true -> full_iterations m b = true ->
  full_iterations (n + m) (a ++ b) = true.
Proof.
  revert a. induction n as [|n IH]; intros a Ha Hb.
  - destruct a; [exact Hb|discriminate Ha].
  - cbn [full_iterations] in Ha.
    peel_event Ha a. peel_event Ha a. peel_event Ha a. peel_event Ha a.
    peel_event Ha a. destruct got; [|discriminate Ha].
    cbn. apply IH; assumption.
Qed.

(** What a trace segment made of [n] full iterations counts. *)
Lemma full_iterations_counts (n : nat) (tr : list event) :
  full_iterations n tr = true ->
  length (filter is_grab tr) = n /\
  length (filter is_time tr) = n /\
  length (filter is_puttext tr) = n /\
  length (filter is_imshow tr) = n /\
  length (filter is_waitkey tr) = n /\
  length (filter is_destroy_all tr) = 0%nat /\
  forall line, length (filter (is_print line) tr) = 0%nat.
Proof.
  revert tr. induction n as [|n IH]; intros tr H.
  - destruct tr; [|discriminate H]. cbn. repeat split; reflexivity.
  - cbn [full_iterations] in H.
    peel_event H tr. peel_event H tr. peel_event H tr. peel_event H tr.
    peel_event H tr. destruct got; [|discriminate H].
    destruct (IH tr H) as (G & T & P & I & K & D & L).
    cbn. rewrite G, T, P, I, K, D. repeat split. exact L.
Qed.

(** [n] iterations in a row, while the device delivers and the quit key is
    not seen. *)
Lemma loop_iterations (n : nat) :
  forall (fuel : nat) (t : BoxingStrikeVision.t) (w : World)
         (c : cv2.Capture),
    BoxingStrikeVision.running t = true ->
    VideoStream.cap (BoxingStrikeVision.video_stream t) = Some c ->
    cv2.isOpened c = true ->
    (forall i, (i < n)%nat -> feed (env w) (reads w + i) <> None) ->
    (forall i, (i < n)%nat -> quits (keys (env w) (polls w + i)) = false) ->
    exists t' w' evs,
      BoxingStrikeVision.loop (n + fuel) t w =
        BoxingStrikeVision.loop fuel t' w' /\
      BoxingStrikeVision.video_stream t' =
        BoxingStrikeVision.video_stream t /\
      BoxingStrikeVision.window_name t' = BoxingStrikeVision.window_name t /\
      BoxingStrikeVision.running t' = true /\
      extends w w' n n n evs /\
      full_iterations n evs = true.
Proof.
  induction n as [|n IH]; intros fuel t w c Hrun Hcap Hopen Hfeed Hkeys.
  - exists t, w, []. unfold extends. cbn. repeat split; try lia; assumption.
  - pose proof (Hfeed 0%nat ltac:(lia)) as Hf0.
    pose proof (Hkeys 0%nat ltac:(lia)) as Hk0.
    rewrite Nat.add_0_r in Hf0, Hk0.
    destruct (feed (env w) (reads w)) as [raw|] eqn:Hraw; [|congruence].
    destruct (loop_step (n + fuel) t w c raw Hrun Hcap Hopen Hraw)
      as (t1 & w1 & evs1 & Hstep & Hvs1 & Hwn1 & Hrun1 & Hext1 & Hfull1).
    rewrite Hk0 in Hrun1. cbn in Hrun1.
    pose proof Hext1 as (E1 & R1 & _ & P1 & _ & _).
    destruct (IH fuel t1 w1 c Hrun1) as
      (t' & w' & evs & Hloop & Hvs & Hwn & Hrun' & Hext & Hfull).
    + rewrite Hvs1. exact Hcap.
    + exact Hopen.
    + intros i Hi. rewrite E1, R1.
      replace (reads w + 1 + i)%nat with (reads w + S i)%nat by lia.
      apply Hfeed. lia.
    + intros i Hi. rewrite E1, P1.
      replace (polls w + 1 + i)%nat with (polls w + S i)%nat by lia.
      apply Hkeys. lia.
    + exists t', w', (evs ++ evs1).
      split; [cbn [Nat.add]; rewrite Hstep; exact Hloop|].
      split; [congruence|]. split; [congruence|]. split; [exact Hrun'|].
      split.
      * exact (extends_trans w w1 w' 1 1 1 n n n evs1 evs Hext1 Hext).
      * replace (S n) with (n + 1)%nat by lia.
        now apply full_iterations_app.
Qed.

(** ** Session Coordinator: setup, cleanup and the entry point *)

(** [setup()] in [main()] when the camera can be opened. *)
Lemma setup_ok (e : Env) :
  camera_ok e 0 = true ->
  exists t1 w1 c,
    BoxingStrikeVision.setup fresh_tracker (boot e) = (Ret tt, t1, w1) /\
    VideoStream.cap (BoxingStrikeVision.video_stream t1) = Some c /\
    cv2.isOpened c = true /\
    env w1 = e /\ reads w1 = 0%nat /\ polls w1 = 0%nat /\ held w1 = 1%nat /\
    trace w1 = setup_trace.
Proof.
  intros Hcam.
  unfold BoxingStrikeVision.setup, BoxingStrikeVision.on_video_stream, zoom,
    VideoStream.start, bind, self, io, assign, ret, raise, cv2.VideoCapture,
    cv2.set, cv2.namedWindow, print.
  cbn. rewrite Hcam. cbn.
  eexists. eexists. eexists. split; [reflexivity|].
  cbn. repeat split; reflexivity.
Qed.

(** [setup()] in any world in which the camera cannot be opened. *)
Lemma setup_fails (w : World) :
  camera_ok (env w) 0 = false ->
  BoxingStrikeVision.setup fresh_tracker w =
    (Raise (IOError "Cannot open camera 0"),
     BoxingStrikeVision.set_video_stream
       (VideoStream.set_cap
          (Some {| cv2.device := 0; cv2.isOpened := false; cv2.props := [] |})
          fresh_stream)
       fresh_tracker,
     log (EvOpen 0 false) (set_held (held w) w)).
Proof.
  intros Hcam.
  unfold BoxingStrikeVision.setup, BoxingStrikeVision.on_video_stream, zoom,
    VideoStream.start, bind, self, io, assign, ret, raise, cv2.VideoCapture.
  cbn. rewrite Hcam. reflexivity.
Qed.

(** What [cleanup()] does. *)
Lemma cleanup_eq (t : BoxingStrikeVision.t) (w : World) :
  BoxingStrikeVision.cleanup t w =
    (Ret tt,
     BoxingStrikeVision.set_video_stream
       (state_of (VideoStream.release (BoxingStrikeVision.video_stream t) w))
       t,
     log (EvPrint BoxingStrikeVision.shutdown_notice)
       (log EvDestroyAll
          (set_windows []
             (world_of
                (VideoStream.release (BoxingStrikeVision.video_stream t) w))))).
Proof.
  unfold BoxingStrikeVision.cleanup, BoxingStrikeVision.on_video_stream,
    zoom, bind at 1.
  rewrite release_eq.
  destruct (VideoStream.cap (BoxingStrikeVision.video_stream t));
    reflexivity.
Qed.

(** [main()] when setup succeeded and the loop was left normally. *)
Lemma main_ret (fuel : nat) (w : World) (t1 t2 : BoxingStrikeVision.t)
    (w1 w2 : World) :
  BoxingStrikeVision.setup fresh_tracker w = (Ret tt, t1, w1) ->
  BoxingStrikeVision.loop fuel (BoxingStrikeVision.set_running true t1) w1 =
    (Ret tt, t2, w2) ->
  main fuel w =
    (Ret tt, state_of (BoxingStrikeVision.cleanup t2 w2),
     world_of (BoxingStrikeVision.cleanup t2 w2)).
Proof.
  intros Hsetup Hloop.
  unfold main, main_body, try_except_finally, BoxingStrikeVision.run.
  fold fresh_tracker.
  unfold bind at 1. rewrite Hsetup.
  unfold bind at 1, assign at 1. rewrite Hloop.
  rewrite cleanup_eq. reflexivity.
Qed.

(** [main()] when setup succeeded and the loop is still going when the
    fuel is spent. *)
Lemma main_out_of_fuel (fuel : nat) (w : World)
    (t1 t2 : BoxingStrikeVision.t) (w1 w2 : World) :
  BoxingStrikeVision.setup fresh_tracker w = (Ret tt, t1, w1) ->
  BoxingStrikeVision.loop fuel (BoxingStrikeVision.set_running true t1) w1 =
    (OutOfFuel, t2, w2) ->
  main fuel w = (OutOfFuel, t2, w2).
Proof.
  intros Hsetup Hloop.
  unfold main, main_body, try_except_finally, BoxingStrikeVision.run.
  fold fresh_tracker.
  unfold bind at 1. rewrite Hsetup.
  unfold bind at 1, assign at 1. rewrite Hloop. reflexivity.
Qed.

(** C6: when the camera cannot be opened, [setup()] raises the [IOError]
    of [start()]; [main()] reports it and still runs [cleanup()], after
    which the stream stores no handle, no device is held that was not held
    before, and no window is open. *)
Theorem open_failure_cleanup (w : World) (fuel : nat) :
  camera_ok (env w) 0 = false ->
  outcome_of (BoxingStrikeVision.setup fresh_tracker w) =
    Raise (IOError "Cannot open camera 0") /\
  exists t' w',
    main fuel w = (Ret tt, t', w') /\
    trace w' =
      cleanup_trace ++
      [EvPrint "Error: Cannot open camera 0"; EvOpen 0 false] ++ trace w /\
    VideoStream.cap (BoxingStrikeVision.video_stream t') = None /\
    held w' = held w /\
    windows w' = [].
Proof.
  intros Hcam. pose proof (setup_fails w Hcam) as Hsetup.
  split; [rewrite Hsetup; reflexivity|].
  unfold main, main_body, try_except_finally, BoxingStrikeVision.run.
  fold fresh_tracker.
  unfold bind at 1. rewrite Hsetup. cbn [is_Exception].
  unfold io at 1, print at 1. rewrite cleanup_eq.
  eexists. eexists. split; [reflexivity|].
  cbn. repeat split; reflexivity.
Qed.

Lemma open_failure_cleanup_witness :
  exists t' w',
    main 7 (boot (bench false 3 9)) = (Ret tt, t', w') /\
    held w' = 0%nat /\ windows w' = [] /\
    VideoStream.cap (BoxingStrikeVision.video_stream t') = None.
Proof.
  destruct (open_failure_cleanup (boot (bench false 3 9)) 7)
    as (_ & t' & w' & Hmain & _ & Hcap & Hheld & Hwin); [reflexivity|].
  exists t', w'. split; [exact Hmain|].
  split; [exact Hheld|]. split; [exact Hwin|exact Hcap].
Defined.

(** A count over a trace cut in three segments. *)
Lemma count_segments (p : event -> bool) (w : World)
    (a evs b : list event) :
  trace w = a ++ evs ++ b ->
  count p w =
    (length (filter p a) + length (filter p evs) + length (filter p b))%nat.
Proof.
  intros H. unfold count. rewrite H, !filter_app, !length_app. lia.
Qed.

(** [main()] when the device stops delivering on iteration [n + 1]. *)
Lemma main_read_failure (e : Env) (n fuel : nat) :
  camera_ok e 0 = true ->
  (forall i, (i < n)%nat -> feed e i <> None) ->
  feed e n = None ->
  (forall i, (i < n)%nat -> quits (keys e i) = false) ->
  (n < fuel)%nat ->
  exists t' w' evs,
    main fuel (boot e) = (Ret tt, t', w') /\
    trace w' =
      (cleanup_trace ++ [EvPrint BoxingStrikeVision.failure_notice;
                         EvGrab false]) ++ evs ++ setup_trace /\
    full_iterations n evs = true /\
    reads w' = S n /\
    VideoStream.cap (BoxingStrikeVision.video_stream t') = None /\
    held w' = 0%nat /\
    windows w' = [].
Proof.
  intros Hcam Hfeed Hnone Hkeys Hfuel.
  destruct (setup_ok e Hcam)
    as (t1 & w1 & c & Hsetup & Hcap & Hopen & E1 & R1 & P1 & H1 & Tr1).
  replace fuel with (n + S (fuel - S n))%nat by lia.
  set (f := (fuel - S n)%nat).
  destruct (loop_iterations n (S f) (BoxingStrikeVision.set_running true t1)
              w1 c eq_refl Hcap Hopen)
    as (t2 & w2 & evs & Hloop & Hvs & _ & Hrun2 & Hext & Hfull).
  { intros i Hi. rewrite E1, R1. now apply Hfeed. }
  { intros i Hi. rewrite E1, P1. now apply Hkeys. }
  destruct Hext as (E2 & R2 & _ & _ & H2 & Tr2).
  cbn [BoxingStrikeVision.video_stream BoxingStrikeVision.set_running] in Hvs.
  destruct (loop_step_fail f t2 w2 c Hrun2) as (t3 & Hfail & Hvs3).
  { rewrite Hvs. exact Hcap. }
  { exact Hopen. }
  { rewrite E2, R2, E1, R1. exact Hnone. }
  rewrite Hfail in Hloop.
  rewrite (main_ret _ _ _ _ _ _ Hsetup Hloop), cleanup_eq, release_eq.
  rewrite Hvs3, Hvs, Hcap, Hopen.
  eexists. eexists. exists evs. split; [reflexivity|].
  unfold state_of, world_of. cbn. rewrite Tr2, Tr1, R2, R1, H2, H1.
  repeat split; reflexivity || assumption.
Qed.

(** [main()] when the quit key is first seen by the poll of iteration
    [n + 1]. *)
Lemma main_quit (e : Env) (n fuel : nat) :
  camera_ok e 0 = true ->
  (forall i, (i <= n)%nat -> feed e i <> None) ->
  (forall i, (i < n)%nat -> quits (keys e i) = false) ->
  quits (keys e n) = true ->
  (S n < fuel)%nat ->
  exists t' w' evs,
    main fuel (boot e) = (Ret tt, t', w') /\
    trace w' = cleanup_trace ++ evs ++ setup_trace /\
    full_iterations (S n) evs = true /\
    reads w' = S n /\
    polls w' = S n /\
    BoxingStrikeVision.running t' = false /\
    VideoStream.cap (BoxingStrikeVision.video_stream t') = None /\
    held w' = 0%nat /\
    windows w' = [].
Proof.
  intros Hcam Hfeed Hkeys Hquit Hfuel.
  destruct (setup_ok e Hcam)
    as (t1 & w1 & c & Hsetup & Hcap & Hopen & E1 & R1 & P1 & H1 & Tr1).
  replace fuel with (n + S (S (fuel - S (S n))))%nat by lia.
  set (f := (fuel - S (S n))%nat).
  destruct (loop_iterations n (S (S f))
              (BoxingStrikeVision.set_running true t1) w1 c
              eq_refl Hcap Hopen)
    as (t2 & w2 & evs & Hloop & Hvs & _ & Hrun2 & Hext & Hfull).
  { intros i Hi. rewrite E1, R1. apply Hfeed. cbn. lia. }
  { intros i Hi. rewrite E1, P1. now apply Hkeys. }
  pose proof Hext as (E2 & R2 & _ & P2 & _ & _).
  cbn [BoxingStrikeVision.video_stream BoxingStrikeVision.set_running] in Hvs.
  destruct (feed (env w2) (reads w2)) as [raw|] eqn:Hraw.
  2:{ rewrite E2, R2, E1, R1 in Hraw. cbn in Hraw.
      now apply Hfeed in Hraw. }
  destruct (loop_step (S f) t2 w2 c raw Hrun2) as
    (t3 & w3 & evs3 & Hstep & Hvs3 & _ & Hrun3 & Hext3 & Hfull3);
    [rewrite Hvs; exact Hcap | exact Hopen | exact Hraw |].
  rewrite E2, P2, E1, P1 in Hrun3. cbn [Nat.add] in Hrun3.
  rewrite Hquit in Hrun3. cbn in Hrun3.
  rewrite Hstep, (loop_stopped f t3 w3 Hrun3) in Hloop.
  pose proof (extends_trans _ _ _ _ _ _ _ _ _ _ _ Hext Hext3)
    as (E3 & R3 & _ & P3 & H3 & Tr3).
  rewrite (main_ret _ _ _ _ _ _ Hsetup Hloop), cleanup_eq, release_eq.
  rewrite Hvs3, Hvs, Hcap, Hopen.
  eexists. eexists. exists (evs3 ++ evs). split; [reflexivity|].
  unfold state_of, world_of. cbn. rewrite Tr3, Tr1, R3, R1, P3, P1, H3, H1.
  rewrite <- app_assoc.
  pose proof (full_iterations_app 1 n _ _ Hfull3 Hfull) as Hfull'.
  repeat split; try reflexivity; try assumption; lia.
Qed.

(** [main()] while the device delivers and the quit key is not seen: after
    [n] iterations the loop has not been left. *)
Lemma main_still_running (e : Env) (n : nat) :
  camera_ok e 0 = true ->
  (forall i, (i < n)%nat -> feed e i <> None) ->
  (forall i, (i < n)%nat -> quits (keys e i) = false) ->
  exists t' w' evs,
    main n (boot e) = (OutOfFuel, t', w') /\
    trace w' = evs ++ setup_trace /\
    full_iterations n evs = true /\
    BoxingStrikeVision.running t' = true.
Proof.
  intros Hcam Hfeed Hkeys.
  destruct (setup_ok e Hcam)
    as (t1 & w1 & c & Hsetup & Hcap & Hopen & E1 & R1 & P1 & H1 & Tr1).
  destruct (loop_iterations n 0 (BoxingStrikeVision.set_running true t1)
              w1 c eq_refl Hcap Hopen)
    as (t2 & w2 & evs & Hloop & _ & _ & Hrun2 & Hext & Hfull).
  { intros i Hi. rewrite E1, R1. now apply Hfeed. }
  { intros i Hi. rewrite E1, P1. now apply Hkeys. }
  destruct Hext as (_ & _ & _ & _ & _ & Tr2).
  rewrite Nat.add_0_r in Hloop. cbn [BoxingStrikeVision.loop] in Hloop.
  unfold out_of_fuel in Hloop.
  exists t2, w2, evs.
  split; [exact (main_out_of_fuel _ _ _ _ _ _ Hsetup Hloop)|].
  rewrite Tr2, Tr1. repeat split; assumption.
Qed.

(** Rewriting a count over a three-segment trace whose middle segment is
    made of full iterations. *)
Ltac count_trace Htrace Hfull :=
  let G := fresh in let T := fresh in let P := fresh in
  let I := fresh in let K := fresh in let D := fresh in let L := fresh in
  destruct (full_iterations_counts _ _ Hfull) as (G & T & P & I & K & D & L);
  repeat split;
  rewrite (count_segments _ _ _ _ _ Htrace), ?G, ?T, ?P, ?I, ?K, ?D, ?L;
  reflexivity.

(** C7: when the first four grabs deliver and the fifth does not, the loop
    is left on iteration 5: the trace of [main()] is the setup, four full
    iterations, the failing grab, the failure notice and the cleanup, in
    this order.  So nothing is shown on iteration 5, the failure notice is
    printed once and the cleanup runs once. *)
Theorem sentinel_on_fifth_read (e : Env) (fuel : nat) :
  camera_ok e 0 = true ->
  (forall i, (i < 4)%nat -> feed e i <> None) ->
  feed e 4 = None ->
  (forall i, (i < 4)%nat -> quits (keys e i) = false) ->
  (5 <= fuel)%nat ->
  exists t' w' evs,
    main fuel (boot e) = (Ret tt, t', w') /\
    trace w' =
      (cleanup_trace ++ [EvPrint BoxingStrikeVision.failure_notice;
                         EvGrab false]) ++ evs ++ setup_trace /\
    full_iterations 4 evs = true /\
    (count is_grab w' = 5%nat /\
     count is_imshow w' = 4%nat /\
     count (is_print BoxingStrikeVision.failure_notice) w' = 1%nat /\
     count (is_print BoxingStrikeVision.shutdown_notice) w' = 1%nat /\
     count is_destroy_all w' = 1%nat) /\
    VideoStream.cap (BoxingStrikeVision.video_stream t') = None /\
    held w' = 0%nat /\
    windows w' = [].
Proof.
  intros Hcam Hfeed Hnone Hkeys Hfuel.
  destruct (main_read_failure e 4 fuel Hcam Hfeed Hnone Hkeys)
    as (t' & w' & evs & Hmain & Htrace & Hfull & _ & Hcap & Hheld & Hwin);
    [lia|].
  exists t', w', evs.
  split; [exact Hmain|]. split; [exact Htrace|]. split; [exact Hfull|].
  split; [count_trace Htrace Hfull|].
  repeat split; assumption.
Qed.

Lemma sentinel_on_fifth_read_witness :
  exists t' w',
    main 5 (boot (bench true 4 99)) = (Ret tt, t', w') /\
    count is_imshow w' = 4%nat /\
    count (is_print BoxingStrikeVision.failure_notice) w' = 1%nat /\
    count (is_print BoxingStrikeVision.shutdown_notice) w' = 1%nat.
Proof.
  destruct (sentinel_on_fifth_read (bench true 4 99) 5)
    as (t' & w' & evs & Hmain & _ & _ & (_ & Hshow & Hfail & Hdown & _) & _).
  - reflexivity.
  - intros i Hi. do 4 (destruct i as [|i]; [discriminate|]). lia.
  - reflexivity.
  - intros i Hi. do 4 (destruct i as [|i]; [reflexivity|]). lia.
  - lia.
  - exists t', w'. repeat split; assumption.
Defined.

(** The iteration on which nothing is delivered, be it that the device has
    no frame or that the stored handle is not open. *)
Lemma loop_step_no_frame (fuel : nat) (t : BoxingStrikeVision.t) (w : World)
    (c : cv2.Capture) :
  BoxingStrikeVision.running t = true ->
  VideoStream.cap (BoxingStrikeVision.video_stream t) = Some c ->
  cv2.isOpened c = false \/ feed (env w) (reads w) = None ->
  exists t' w',
    BoxingStrikeVision.loop (S fuel) t w = (Ret tt, t', w') /\
    trace w' = failure_tail ++ trace w /\
    held w' = held w /\
    env w' = env w /\
    windows w' = windows w /\
    BoxingStrikeVision.video_stream t' = BoxingStrikeVision.video_stream t /\
    BoxingStrikeVision.fps_counter t' = BoxingStrikeVision.fps_counter t /\
    BoxingStrikeVision.running t' = true.
Proof.
  intros Hrun Hcap Hno.
  cbn [BoxingStrikeVision.loop].
  unfold bind at 1. unfold self at 1. rewrite Hrun.
  unfold bind at 1. unfold BoxingStrikeVision.on_video_stream, zoom.
  rewrite (read_set _ w c Hcap).
  destruct (cv2.isOpened c) eqn:Hopen.
  - destruct Hno as [Hno|Hno]; [discriminate Hno|]. rewrite Hno.
    eexists. eexists. split; [reflexivity|]. cbn.
    repeat split; try reflexivity. exact Hrun.
  - eexists. eexists. split; [reflexivity|]. cbn.
    repeat split; try reflexivity. exact Hrun.
Qed.

(** One iteration with a delivered frame, call by call: the counter is
    updated as the specification says, the overlay text is the rate just
    stored, and the frame shown is the overlay on the mirrored raw frame. *)
Lemma loop_step_exact (fuel : nat) (t : BoxingStrikeVision.t) (w : World)
    (c : cv2.Capture) (raw : Frame) :
  BoxingStrikeVision.running t = true ->
  VideoStream.cap (BoxingStrikeVision.video_stream t) = Some c ->
  cv2.isOpened c = true ->
  feed (env w) (reads w) = Some raw ->
  let counter :=
    spec_update (clock (env w) (ticks w)) (BoxingStrikeVision.fps_counter t) in
  let text := ("FPS: " ++ str (int (FPSCounter.fps counter)))%string in
  exists t' w',
    BoxingStrikeVision.loop (S fuel) t w =
      BoxingStrikeVision.loop fuel t' w' /\
    BoxingStrikeVision.fps_counter t' = counter /\
    BoxingStrikeVision.video_stream t' = BoxingStrikeVision.video_stream t /\
    BoxingStrikeVision.window_name t' = BoxingStrikeVision.window_name t /\
    BoxingStrikeVision.running t' = negb (quits (keys (env w) (polls w))) /\
    extends w w' 1 1 1
      [EvWaitKey 1 (keys (env w) (polls w));
       EvImshow (BoxingStrikeVision.window_name t)
         (glyphs (env w) (cv2.flip_grid raw 1) text (10, 30)
                 cv2.FONT_HERSHEY_SIMPLEX 1 (0, 255, 0) 2);
       EvPutText text (10, 30);
       EvTime (clock (env w) (ticks w));
       EvGrab true].
Proof.
  intros Hrun Hcap Hopen Hfeed counter text. subst text counter.
  unfold spec_update.
  cbn [BoxingStrikeVision.loop].
  unfold bind at 1. unfold self at 1. rewrite Hrun.
  unfold bind at 1. unfold BoxingStrikeVision.on_video_stream, zoom.
  rewrite (read_set _ w c Hcap), Hopen, Hfeed.
  unfold bind at 1. unfold BoxingStrikeVision.process_frame.
  unfold bind at 1. unfold BoxingStrikeVision.on_fps_counter at 1, zoom.
  rewrite update_eq. cbv zeta.
  unfold bind at 1. unfold BoxingStrikeVision.on_fps_counter at 1, zoom.
  rewrite draw_eq. unfold ret at 1.
  unfold bind at 1. unfold io at 1, cv2.imshow.
  unfold bind at 1. unfold io at 1, cv2.waitKey.
  unfold bind at 1.
  cbn [env reads ticks polls held trace windows log set_reads set_ticks
       set_polls set_windows].
  destruct (existsb _ (windows w));
    cbn [env reads ticks polls held trace windows log set_reads set_ticks
         set_polls set_windows];
    unfold quits;
    destruct (Z.eqb (Z.land (keys (env w) (polls w)) 255) (ord "q"));
    unfold assign, ret;
    (eexists; eexists; split; [reflexivity|]);
    unfold extends; cbn;
    repeat split; try lia; try exact Hrun; reflexivity.
Qed.

(** The first [n] iterations of a run that started with the world at
    process start, continued from iteration [k]: counter, counters of the
    world and trace, exactly. *)
Lemma loop_iterations_exact (e : Env) (base : list event) (n : nat) :
  forall (k fuel : nat) (t : BoxingStrikeVision.t) (w : World)
         (c : cv2.Capture),
    BoxingStrikeVision.running t = true ->
    VideoStream.cap (BoxingStrikeVision.video_stream t) = Some c ->
    cv2.isOpened c = true ->
    BoxingStrikeVision.fps_counter t = spec_counter e k ->
    env w = e -> reads w = k -> ticks w = k -> polls w = k ->
    trace w =
      iterations_trace e (BoxingStrikeVision.window_name t) k ++ base ->
    (forall i, (i < n)%nat -> feed e (k + i) <> None) ->
    (forall i, (i < n)%nat -> quits (keys e (k + i)) = false) ->
    exists t' w',
      BoxingStrikeVision.loop (n + fuel) t w =
        BoxingStrikeVision.loop fuel t' w' /\
      BoxingStrikeVision.running t' = true /\
      BoxingStrikeVision.video_stream t' =
        BoxingStrikeVision.video_stream t /\
      BoxingStrikeVision.window_name t' = BoxingStrikeVision.window_name t /\
      BoxingStrikeVision.fps_counter t' = spec_counter e (k + n) /\
      env w' = e /\ reads w' = (k + n)%nat /\ ticks w' = (k + n)%nat /\
      polls w' = (k + n)%nat /\ held w' = held w /\
      trace w' =
        iterations_trace e (BoxingStrikeVision.window_name t) (k + n) ++ base.
Proof.
  induction n as [|n IH];
    intros k fuel t w c Hrun Hcap Hopen Hfc He Hr Ht Hp Htr Hfeed Hkeys.
  - exists t, w. rewrite Nat.add_0_r. repeat split; assumption.
  - pose proof (Hfeed 0%nat ltac:(lia)) as Hf0.
    pose proof (Hkeys 0%nat ltac:(lia)) as Hk0.
    rewrite Nat.add_0_r in Hf0, Hk0.
    destruct (feed e k) as [raw|] eqn:Hraw; [|congruence].
    destruct (loop_step_exact (n + fuel) t w c raw Hrun Hcap Hopen)
      as (t1 & w1 & Hstep & Hfc1 & Hvs1 & Hwn1 & Hrun1 & Hext1).
    { rewrite He, Hr. exact Hraw. }
    rewrite He, Hp, Hk0 in Hrun1. cbn [negb] in Hrun1.
    destruct Hext1 as (E1 & R1 & T1 & P1 & H1 & Tr1).
    rewrite He, Ht, Hp, Hfc in *.
    destruct (IH (S k) fuel t1 w1 c Hrun1) as
      (t' & w' & Hloop & Hrun' & Hvs & Hwn & Hfc' & He' & Hr' & Ht' & Hp' &
       Hh' & Htr').
    + rewrite Hvs1. exact Hcap.
    + exact Hopen.
    + rewrite Hfc1. reflexivity.
    + exact E1.
    + rewrite R1, Hr. lia.
    + rewrite T1. lia.
    + rewrite P1. lia.
    + rewrite Tr1, Htr, Hwn1. cbn [iterations_trace].
      unfold iteration_trace, overlay_text. rewrite Hraw.
      cbn [spec_counter]. rewrite <- app_assoc. reflexivity.
    + intros i Hi. replace (S k + i)%nat with (k + S i)%nat by lia.
      apply Hfeed. lia.
    + intros i Hi. replace (S k + i)%nat with (k + S i)%nat by lia.
      apply Hkeys. lia.
    + exists t', w'.
      replace (k + S n)%nat with (S k + n)%nat by lia.
      split; [cbn [Nat.add]; rewrite Hstep; exact Hloop|].
      rewrite Hwn1 in Htr', Hwn.
      repeat split; try assumption; congruence.
Qed.

(** The trace of [n] iterations is made of [n] full iterations. *)
Lemma iterations_trace_full (e : Env) (name : string) (n : nat) :
  full_iterations n (iterations_trace e name n) = true.
Proof.
  induction n as [|n IH]; [reflexivity|]. cbn. exact IH.
Qed.

(** [setup()] in [main()] when the camera can be opened, with the tracker
    and the counters of the world it leaves. *)
Lemma setup_ok_exact (e : Env) :
  camera_ok e 0 = true ->
  exists t1 w1 c,
    BoxingStrikeVision.setup fresh_tracker (boot e) = (Ret tt, t1, w1) /\
    VideoStream.cap (BoxingStrikeVision.video_stream t1) = Some c /\
    cv2.isOpened c = true /\
    BoxingStrikeVision.fps_counter t1 = FPSCounter.new /\
    BoxingStrikeVision.window_name t1 = "PunchTracker" /\
    env w1 = e /\ reads w1 = 0%nat /\ ticks w1 = 0%nat /\
    polls w1 = 0%nat /\ held w1 = 1%nat /\
    trace w1 = setup_trace.
Proof.
  intros Hcam.
  unfold BoxingStrikeVision.setup, BoxingStrikeVision.on_video_stream, zoom,
    VideoStream.start, bind, self, io, assign, ret, raise, cv2.VideoCapture,
    cv2.set, cv2.namedWindow, print.
  cbn. rewrite Hcam. cbn.
  eexists. eexists. eexists. split; [reflexivity|].
  cbn. repeat split; reflexivity.
Qed.

(** [main()] when the quit key is first seen by the poll of iteration
    [n + 1]: the trace and the Rate Monitor, exactly. *)
Lemma main_quit_exact (e : Env) (n fuel : nat) :
  camera_ok e 0 = true ->
  (forall i, (i <= n)%nat -> feed e i <> None) ->
  (forall i, (i < n)%nat -> quits (keys e i) = false) ->
  quits (keys e n) = true ->
  (S n < fuel)%nat ->
  exists t' w',
    main fuel (boot e) = (Ret tt, t', w') /\
    trace w' =
      cleanup_trace ++ iterations_trace e "PunchTracker" (S n) ++
      setup_trace /\
    BoxingStrikeVision.fps_counter t' = spec_counter e (S n) /\
    BoxingStrikeVision.running t' = false /\
    VideoStream.cap (BoxingStrikeVision.video_stream t') = None /\
    held w' = 0%nat /\
    windows w' = [].
Proof.
  intros Hcam Hfeed Hkeys Hquit Hfuel.
  destruct (setup_ok_exact e Hcam)
    as (t1 & w1 & c & Hsetup & Hcap & Hopen & Hfc1 & Hwn1 & E1 & R1 & T1 &
        P1 & H1 & Tr1).
  replace fuel with (n + S (S (fuel - S (S n))))%nat by lia.
  set (f := (fuel - S (S n))%nat).
  destruct (loop_iterations_exact e setup_trace n 0 (S (S f))
              (BoxingStrikeVision.set_running true t1) w1 c
              eq_refl Hcap Hopen Hfc1 E1 R1 T1 P1)
    as (t2 & w2 & Hloop & Hrun2 & Hvs & Hwn & Hfc2 & E2 & R2 & T2 & P2 &
        H2 & Tr2).
  { rewrite Tr1. reflexivity. }
  { intros i Hi. apply Hfeed. cbn. lia. }
  { intros i Hi. now apply Hkeys. }
  cbn [BoxingStrikeVision.video_stream BoxingStrikeVision.window_name
       BoxingStrikeVision.set_running Nat.add] in *.
  destruct (feed e n) as [raw|] eqn:Hraw;
    [|exfalso; apply (Hfeed n); [lia|exact Hraw]].
  destruct (loop_step_exact (S f) t2 w2 c raw Hrun2) as
    (t3 & w3 & Hstep & Hfc3 & Hvs3 & _ & Hrun3 & Hext3);
    [rewrite Hvs; exact Hcap | exact Hopen | rewrite E2, R2; exact Hraw |].
  rewrite E2, P2, Hquit in Hrun3. cbn [negb] in Hrun3.
  rewrite E2, T2, Hfc2, Hwn, Hwn1 in *.
  destruct Hext3 as (E3 & R3 & T3 & P3 & H3 & Tr3).
  rewrite Hstep, (loop_stopped f t3 w3 Hrun3) in Hloop.
  rewrite (main_ret _ _ _ _ _ _ Hsetup Hloop), cleanup_eq, release_eq.
  rewrite Hvs3, Hvs, Hcap, Hopen.
  eexists. eexists. split; [reflexivity|].
  unfold state_of, world_of. cbn.
  rewrite Tr3, Tr2, H3, H2, H1, P2, Hfc3.
  unfold iteration_trace, overlay_text. rewrite Hraw. cbn [spec_counter].
  repeat split; try reflexivity; assumption.
Qed.

(** Why the loop is left, whenever it is left normally: the poll of the
    last iteration saw the quit key, or the last grab delivered nothing. *)
Lemma loop_exit_cause (fuel : nat) :
  forall (t t' : BoxingStrikeVision.t) (w w' : World) (c : cv2.Capture),
    VideoStream.cap (BoxingStrikeVision.video_stream t) = Some c ->
    BoxingStrikeVision.running t = true \/
    (exists k rest, trace w = EvWaitKey 1 k :: rest /\ quits k = true) ->
    BoxingStrikeVision.loop fuel t w = (Ret tt, t', w') ->
    (BoxingStrikeVision.running t' = false /\
     exists k rest, trace w' = EvWaitKey 1 k :: rest /\ quits k = true) \/
    (BoxingStrikeVision.running t' = true /\
     exists rest, trace w' = failure_tail ++ rest).
Proof.
  induction fuel as [|fuel IH]; intros t t' w w' c Hcap Hinv Hloop.
  - discriminate Hloop.
  - destruct (BoxingStrikeVision.running t) eqn:Hrun.
    2:{ rewrite (loop_stopped fuel t w Hrun) in Hloop.
        inversion Hloop; subst t' w'.
        destruct Hinv as [Hinv|Hinv]; [discriminate Hinv|].
        left. split; assumption. }
    assert (forall (Hno : cv2.isOpened c = false \/
                          feed (env w) (reads w) = None),
               BoxingStrikeVision.running t' = true /\
               exists rest, trace w' = failure_tail ++ rest) as Hfail.
    { intros Hno.
      destruct (loop_step_no_frame fuel t w c Hrun Hcap Hno)
        as (t1 & w1 & Hstep & Htr & _ & _ & _ & _ & _ & Hrun1).
      rewrite Hstep in Hloop. inversion Hloop; subst t' w'.
      split; [exact Hrun1|]. eexists. exact Htr. }
    destruct (cv2.isOpened c) eqn:Hopen; [|right; apply Hfail; now left].
    destruct (feed (env w) (reads w)) as [raw|] eqn:Hfeed;
      [|right; apply Hfail; now right].
    destruct (loop_step_exact fuel t w c raw Hrun Hcap Hopen Hfeed)
      as (t1 & w1 & Hstep & _ & Hvs1 & _ & Hrun1 & Hext1).
    destruct Hext1 as (_ & _ & _ & _ & _ & Tr1).
    rewrite Hstep in Hloop.
    apply (IH t1 t' w1 w' c); [rewrite Hvs1; exact Hcap | | exact Hloop].
    destruct (quits (keys (env w) (polls w))) eqn:Hq.
    + right. eexists. eexists. split; [exact Tr1|exact Hq].
    + left. exact Hrun1.
Qed.

(** C8: when every grab delivers and the quit key is first seen by the
    poll of iteration 10, [main()] returns and its trace is exactly the
    setup, ten iterations and the cleanup.  Each iteration is a grab, the
    clock reading of that iteration, the overlay, the presentation of the
    mirrored frame with the overlay, and a poll; the overlay text is the
    rate the specification's Rate Monitor holds after the update of that
    iteration, and the tracker's Rate Monitor ends as that one does after
    ten updates: its timestamp is the tenth clock reading and, when the
    tenth reading is later than the ninth, its rate is the reciprocal of
    their difference.  And whenever [run()] returns, on any tracker that
    stores a handle and in any world, the loop was left for one of two
    reasons only: the poll of the last iteration saw the quit key, or the
    last grab delivered nothing. *)
Theorem quit_on_tenth_poll (e : Env) :
  camera_ok e 0 = true ->
  (forall fuel,
     (forall i, (i < 10)%nat -> feed e i <> None) ->
     (forall i, (i < 9)%nat -> quits (keys e i) = false) ->
     quits (keys e 9) = true ->
     (10 < fuel)%nat ->
     exists t' w' evs,
       main fuel (boot e) = (Ret tt, t', w') /\
       trace w' = cleanup_trace ++ evs ++ setup_trace /\
       evs = iterations_trace e "PunchTracker" 10 /\
       full_iterations 10 evs = true /\
       (BoxingStrikeVision.fps_counter t' = spec_counter e 10 /\
        FPSCounter.prev_time (BoxingStrikeVision.fps_counter t') =
          clock e 9 /\
        ((clock e 8 < clock e 9)%Q ->
         FPSCounter.fps (BoxingStrikeVision.fps_counter t') =
           (1 / (clock e 9 - clock e 8))%Q)) /\
       (count is_grab w' = 10%nat /\
        count is_time w' = 10%nat /\
        count is_puttext w' = 10%nat /\
        count is_imshow w' = 10%nat /\
        count is_waitkey w' = 10%nat /\
        count (is_print BoxingStrikeVision.failure_notice) w' = 0%nat /\
        count (is_print BoxingStrikeVision.shutdown_notice) w' = 1%nat /\
        count is_destroy_all w' = 1%nat) /\
       BoxingStrikeVision.running t' = false /\
       VideoStream.cap (BoxingStrikeVision.video_stream t') = None /\
       held w' = 0%nat /\
       windows w' = []) /\
  (forall (fuel : nat) (t t' : BoxingStrikeVision.t) (w w' : World)
          (c : cv2.Capture),
     VideoStream.cap (BoxingStrikeVision.video_stream t) = Some c ->
     BoxingStrikeVision.run fuel t w = (Ret tt, t', w') ->
     (BoxingStrikeVision.running t' = false /\
      exists k rest, trace w' = EvWaitKey 1 k :: rest /\ quits k = true) \/
     (BoxingStrikeVision.running t' = true /\
      exists rest, trace w' = failure_tail ++ rest)).
Proof.
  intros Hcam. split.
  - intros fuel Hfeed Hkeys Hquit Hfuel.
    destruct (main_quit_exact e 9 fuel Hcam) as
      (t' & w' & Hmain & Htrace & Hfc & Hrun & Hcap & Hheld & Hwin);
      try assumption.
    { intros i Hi. apply Hfeed. lia. }
    pose proof (iterations_trace_full e "PunchTracker" 10) as Hfull.
    exists t', w', (iterations_trace e "PunchTracker" 10).
    split; [exact Hmain|]. split; [exact Htrace|]. split; [reflexivity|].
    split; [exact Hfull|].
    split.
    { split; [exact Hfc|]. rewrite Hfc. split; [reflexivity|].
      intros Hlt. cbn [spec_counter]. unfold spec_update at 1.
      cbn [FPSCounter.fps FPSCounter.prev_time].
      unfold spec_update at 1. cbn [FPSCounter.prev_time].
      assert (Qgtb (clock e 9 - clock e 8) 0 = true) as ->; [|reflexivity].
      apply Qgtb_true. unfold Qminus. rewrite <- Qlt_minus_iff. exact Hlt. }
    split; [count_trace Htrace Hfull|].
    repeat split; assumption.
  - intros fuel t t' w w' c Hcap Hrun.
    unfold BoxingStrikeVision.run in Hrun.
    unfold bind at 1, assign at 1 in Hrun.
    apply (loop_exit_cause fuel (BoxingStrikeVision.set_running true t) t'
             w w' c Hcap); [left; reflexivity|exact Hrun].
Qed.

Lemma quit_on_tenth_poll_witness :
  exists t' w',
    main 11 (boot (bench true 20 9)) = (Ret tt, t', w') /\
    count is_imshow w' = 10%nat /\
    count is_waitkey w' = 10%nat /\
    FPSCounter.prev_time (BoxingStrikeVision.fps_counter t') =
      clock (bench true 20 9) 9 /\
    BoxingStrikeVision.running t' = false.
Proof.
  destruct (quit_on_tenth_poll (bench true 20 9) eq_refl) as [Hquit _].
  destruct (Hquit 11%nat)
    as (t' & w' & evs & Hmain & _ & _ & _ & (_ & Hprev & _) &
        (_ & _ & _ & Hshow & Hpoll & _) & Hrun & _).
  - intros i Hi. do 10 (destruct i as [|i]; [discriminate|]). lia.
  - intros i Hi. do 9 (destruct i as [|i]; [reflexivity|]). lia.
  - reflexivity.
  - lia.
  - exists t', w'. repeat split; assumption.
Defined.

(** * Further properties of the code *)

(** ** Capture Source: starting *)

(** X1: on a stream that holds no handle, [start()] with a camera that can
    be opened returns normally and leaves an open handle on the configured
    device, to which the configured width, height and frame rate were
    given, in this order, as hints; the configuration is unchanged and one
    more device is held. *)
Theorem start_opens_and_configures (s : VideoStream.t) (w : World) :
  VideoStream.cap s = None ->
  camera_ok (env w) (VideoStream.camera_id s) = true ->
  exists s' w' c,
    VideoStream.start s w = (Ret tt, s', w') /\
    VideoStream.cap s' = Some c /\
    cv2.isOpened c = true /\
    cv2.device c = VideoStream.camera_id s /\
    cv2.props c =
      [(cv2.CAP_PROP_FPS, VideoStream.fps s);
       (cv2.CAP_PROP_FRAME_HEIGHT, VideoStream.height s);
       (cv2.CAP_PROP_FRAME_WIDTH, VideoStream.width s)] /\
    VideoStream.set_cap None s' = s /\
    held w' = S (held w) /\
    reads w' = reads w /\
    windows w' = windows w /\
    trace w' = start_trace s ++ trace w.
Proof.
  intros Hcap Hcam.
  unfold VideoStream.start, bind, self, io, assign, ret, raise,
    cv2.VideoCapture, cv2.set.
  cbn. rewrite Hcam. cbn.
  eexists. eexists. eexists. split; [reflexivity|].
  cbn. destruct s as [i wd ht f c]. cbn in Hcap. subst c.
  repeat split; reflexivity.
Qed.

Lemma start_opens_and_configures_witness :
  exists s' w',
    VideoStream.start fresh_stream (boot (bench true 3 9)) =
      (Ret tt, s', w') /\
    held w' = 1%nat.
Proof.
  destruct (start_opens_and_configures fresh_stream (boot (bench true 3 9)))
    as (s' & w' & c & Hstart & _ & _ & _ & _ & _ & Hheld & _);
    [reflexivity | reflexivity |].
  exists s', w'. split; [exact Hstart | exact Hheld].
Defined.

(** X2: [start()] followed by [release()], on a stream that holds no
    handle, gives the stream back as it was and holds no more devices than
    before, whether the camera could be opened ([start()] returned) or not
    ([start()] raised [IOError]). *)
Theorem start_release_balance (s : VideoStream.t) (w : World) :
  VideoStream.cap s = None ->
  exists r s1 w1 w2,
    VideoStream.start s w = (r, s1, w1) /\
    (r = Ret tt \/
     r = Raise (IOError ("Cannot open camera " ++
                         str (VideoStream.camera_id s)))) /\
    VideoStream.release s1 w1 = (Ret tt, s, w2) /\
    held w2 = held w /\
    windows w2 = windows w.
Proof.
  intros Hcap. destruct s as [i wd ht f c]. cbn in Hcap. subst c.
  unfold VideoStream.start, bind, self, io, assign, ret, raise,
    cv2.VideoCapture, cv2.set.
  cbn. destruct (camera_ok (env w) i) eqn:Hcam; cbn.
  - eexists. eexists. eexists. eexists. split; [reflexivity|].
    split; [left; reflexivity|]. cbn.
    repeat split; reflexivity.
  - eexists. eexists. eexists. eexists. split; [reflexivity|].
    split; [right; reflexivity|]. cbn.
    repeat split; reflexivity.
Qed.

Lemma start_release_balance_witness :
  exists r s1 w1 w2,
    VideoStream.start fresh_stream (boot (bench false 3 9)) = (r, s1, w1) /\
    VideoStream.release s1 w1 = (Ret tt, fresh_stream, w2) /\
    held w2 = 0%nat.
Proof.
  destruct (start_release_balance fresh_stream (boot (bench false 3 9)))
    as (r & s1 & w1 & w2 & Hstart & _ & Hrel & Hheld & _); [reflexivity|].
  exists r, s1, w1, w2. split; [exact Hstart|]. split; [exact Hrel|].
  exact Hheld.
Defined.

(** ** Rate Monitor: intervals *)

(** A rate in the unit interval has floor zero. *)
Lemma Qfloor_unit (x : Q) : (0 <= x)%Q -> (x < 1)%Q -> Qfloor x = 0.
Proof.
  intros H0 H1.
  pose proof (Qfloor_resp_le 0 x H0) as Hlo. cbn in Hlo.
  assert (Qfloor x < 1) as Hhi.
  { rewrite Zlt_Qlt. eapply Qle_lt_trans; [apply Qfloor_le|exact H1]. }
  lia.
Qed.

(** The sign test of [update()] when the clock has not advanced. *)
Lemma not_advanced (now prev : Q) :
  (now <= prev)%Q -> Qgtb (now - prev) 0 = false.
Proof.
  intros H. apply Qgtb_false. unfold Qminus.
  rewrite <- (Qplus_opp_r prev). apply Qplus_le_l. exact H.
Qed.

(** X3: when the clock reading is not later than the stored timestamp (a
    stalled clock, or one that was set back), [update()] keeps the rate and
    returns it, and still replaces the stored timestamp by the reading. *)
Theorem update_clock_not_advanced (s : FPSCounter.t) (w : World) :
  (clock (env w) (ticks w) <= FPSCounter.prev_time s)%Q ->
  exists w',
    FPSCounter.update s w =
      (Ret (FPSCounter.fps s),
       {| FPSCounter.prev_time := clock (env w) (ticks w);
          FPSCounter.current_time := clock (env w) (ticks w);
          FPSCounter.fps := FPSCounter.fps s |},
       w').
Proof.
  intros H. rewrite update_eq. cbv zeta.
  rewrite (not_advanced _ _ H). eexists. reflexivity.
Qed.

Lemma update_clock_not_advanced_witness :
  exists w',
    FPSCounter.update
      {| FPSCounter.prev_time := 2000; FPSCounter.current_time := 2000;
         FPSCounter.fps := 30 |}
      (boot (bench true 3 9)) =
    (Ret 30%Q,
     {| FPSCounter.prev_time := (1000 + 0 # 30)%Q;
        FPSCounter.current_time := (1000 + 0 # 30)%Q;
        FPSCounter.fps := 30 |},
     w').
Proof.
  destruct (update_clock_not_advanced
              {| FPSCounter.prev_time := 2000; FPSCounter.current_time := 2000;
                 FPSCounter.fps := 30 |}
              (boot (bench true 3 9))) as (w' & H).
  - vm_compute. discriminate.
  - exists w'. exact H.
Defined.

(** X4: after two [update()] calls in a row the rate depends on the two
    clock readings only, not on what the counter held before: it is the
    reciprocal of their difference when the second is later than the first,
    and what the first call left when it is not. *)
Theorem two_updates_rate (s : FPSCounter.t) (w : World) :
  let t1 := clock (env w) (ticks w) in
  let t2 := clock (env w) (S (ticks w)) in
  exists s2 w2,
    counter_calls [Update; Update] s w = (Ret tt, s2, w2) /\
    FPSCounter.prev_time s2 = t2 /\
    ((t1 < t2)%Q -> FPSCounter.fps s2 = (1 / (t2 - t1))%Q) /\
    ((t2 <= t1)%Q ->
     FPSCounter.fps s2 =
       FPSCounter.fps (state_of (FPSCounter.update s w))).
Proof.
  intros t1 t2. cbn [counter_calls].
  unfold bind at 1. rewrite update_eq. cbv zeta.
  unfold bind at 1. rewrite update_eq. cbv zeta.
  unfold ret. cbn [env ticks log set_ticks FPSCounter.prev_time FPSCounter.fps].
  fold t1. fold t2.
  eexists. eexists. split; [reflexivity|].
  unfold state_of. cbn. split; [reflexivity|]. split.
  - intros Hlt.
    assert (Qgtb (t2 - t1) 0 = true) as ->; [|reflexivity].
    apply Qgtb_true. unfold Qminus. rewrite <- Qlt_minus_iff. exact Hlt.
  - intros Hle. rewrite (not_advanced _ _ Hle). reflexivity.
Qed.

(** X5: when more than one second lies between the stored timestamp and
    the clock reading, as on the first [update()] of a new counter, whose
    stored timestamp is zero, the rate that is stored is below one and the
    text [draw()] shows next is "FPS: 0". *)
Theorem slow_update_shows_zero (s : FPSCounter.t) (w : World) :
  (1 < clock (env w) (ticks w) - FPSCounter.prev_time s)%Q ->
  let s' := state_of (FPSCounter.update s w) in
  (0 < FPSCounter.fps s')%Q /\ (FPSCounter.fps s' < 1)%Q /\
  FPSCounter.fps_text s' = "FPS: 0".
Proof.
  intros Hd s'. subst s'. rewrite update_eq. cbv zeta.
  unfold state_of. cbn [fst snd FPSCounter.fps].
  set (d := (clock (env w) (ticks w) - FPSCounter.prev_time s)%Q) in *.
  assert (0 < d)%Q as Hpos.
  { eapply Qlt_trans; [|exact Hd]. reflexivity. }
  assert (Qgtb d 0 = true) as Hg by (apply Qgtb_true, Hpos).
  assert (0 < 1 / d)%Q as Hlo.
  { unfold Qdiv. rewrite Qmult_1_l. now apply Qinv_lt_0_compat. }
  assert (1 / d < 1)%Q as Hhi.
  { apply Qlt_shift_div_r; [exact Hpos|]. rewrite Qmult_1_l. exact Hd. }
  unfold FPSCounter.fps_text. cbn [FPSCounter.fps]. rewrite Hg.
  split; [exact Hlo|]. split; [exact Hhi|].
  rewrite (int_floor _ (Qlt_le_weak _ _ Hlo)).
  rewrite (Qfloor_unit _ (Qlt_le_weak _ _ Hlo) Hhi). reflexivity.
Qed.

Lemma slow_update_shows_zero_witness :
  FPSCounter.fps_text
    (state_of (FPSCounter.update FPSCounter.new (boot (bench true 3 9)))) =
  "FPS: 0".
Proof.
  destruct (slow_update_shows_zero FPSCounter.new (boot (bench true 3 9)))
    as (_ & _ & H).
  - vm_compute. reflexivity.
  - exact H.
Defined.

(** ** Session Coordinator: every run of the loop *)

(** Every run of the loop on a tracker whose stream stores a handle, with
    the exceptions that are modelled: what it adds to the trace is a number
    of full iterations, followed by the failing grab and the failure notice when it
    is left because nothing was delivered. *)
Lemma loop_shape (fuel : nat) :
  forall (t : BoxingStrikeVision.t) (w : World) (c : cv2.Capture),
    VideoStream.cap (BoxingStrikeVision.video_stream t) = Some c ->
    exists r t' w' n evs tail,
      BoxingStrikeVision.loop fuel t w = (r, t', w') /\
      trace w' = tail ++ evs ++ trace w /\
      full_iterations n evs = true /\
      (n <= fuel)%nat /\
      held w' = held w /\
      env w' = env w /\
      BoxingStrikeVision.video_stream t' = BoxingStrikeVision.video_stream t /\
      ((r = OutOfFuel /\ tail = [] /\ n = fuel) \/
       (r = Ret tt /\ tail = [] /\ BoxingStrikeVision.running t' = false /\
        (BoxingStrikeVision.running t = true -> (0 < n)%nat)) \/
       (r = Ret tt /\ tail = failure_tail /\
        BoxingStrikeVision.running t' = true)).
Proof.
  induction fuel as [|fuel IH]; intros t w c Hcap.
  - exists OutOfFuel, t, w, 0%nat, [], []. cbn.
    repeat split; try reflexivity; try lia. left. repeat split.
  - destruct (BoxingStrikeVision.running t) eqn:Hrun.
    2:{ exists (Ret tt), t, w, 0%nat, [], [].
        rewrite (loop_stopped fuel t w Hrun). cbn.
        repeat split; try reflexivity; try lia.
        right. left. repeat split; [exact Hrun|discriminate]. }
    destruct (cv2.isOpened c) eqn:Hopen.
    2:{ destruct (loop_step_no_frame fuel t w c Hrun Hcap (or_introl Hopen))
          as (t' & w' & Hloop & Htr & Hheld & Henv & _ & Hvs & _ & Hrun').
        exists (Ret tt), t', w', 0%nat, [], failure_tail.
        repeat split; try assumption; try reflexivity; try lia.
        right. right. repeat split; assumption. }
    destruct (feed (env w) (reads w)) as [raw|] eqn:Hfeed.
    2:{ destruct (loop_step_no_frame fuel t w c Hrun Hcap (or_intror Hfeed))
          as (t' & w' & Hloop & Htr & Hheld & Henv & _ & Hvs & _ & Hrun').
        exists (Ret tt), t', w', 0%nat, [], failure_tail.
        repeat split; try assumption; try reflexivity; try lia.
        right. right. repeat split; assumption. }
    destruct (loop_step fuel t w c raw Hrun Hcap Hopen Hfeed)
      as (t1 & w1 & evs1 & Hstep & Hvs1 & _ & _ & Hext1 & Hfull1).
    destruct Hext1 as (E1 & _ & _ & _ & H1 & Tr1).
    destruct (IH t1 w1 c) as
      (r & t' & w' & n & evs & tail & Hloop & Htr & Hfull & Hn & Hheld &
       Henv & Hvs & Hcases); [rewrite Hvs1; exact Hcap|].
    exists r, t', w', (n + 1)%nat, (evs ++ evs1), tail.
    split; [rewrite Hstep; exact Hloop|].
    split; [rewrite Htr, Tr1, <- app_assoc; reflexivity|].
    split; [now apply full_iterations_app|].
    split; [lia|]. split; [congruence|]. split; [congruence|].
    split; [congruence|].
    destruct Hcases as [(Hr & Ht & Hnf)|[(Hr & Ht & Hrun' & _)|(Hr & Ht & Hrun')]].
    + left. repeat split; try assumption. lia.
    + right. left. repeat split; try assumption. intros _. lia.
    + right. right. repeat split; assumption.
Qed.

(** X6: whenever [run()] returns, on a tracker whose stream stores a
    handle, what it added to the trace is a number of full iterations,
    followed by the failing grab and the failure notice when it was left
    because nothing was delivered.  It is left with the running flag down
    after at least one iteration, or with the flag still up after the
    failure notice; and it has opened or closed no device. *)
Theorem run_trace_shape (fuel : nat) (t t' : BoxingStrikeVision.t)
    (w w' : World) (c : cv2.Capture) :
  VideoStream.cap (BoxingStrikeVision.video_stream t) = Some c ->
  BoxingStrikeVision.run fuel t w = (Ret tt, t', w') ->
  exists n evs tail,
    trace w' = tail ++ evs ++ trace w /\
    full_iterations n evs = true /\
    (n <= fuel)%nat /\
    held w' = held w /\
    BoxingStrikeVision.video_stream t' = BoxingStrikeVision.video_stream t /\
    ((tail = [] /\ (0 < n)%nat /\
      BoxingStrikeVision.running t' = false) \/
     (tail = failure_tail /\
      BoxingStrikeVision.running t' = true)).
Proof.
  intros Hcap Hrun.
  destruct (loop_shape fuel (BoxingStrikeVision.set_running true t) w c Hcap)
    as (r & t2 & w2 & n & evs & tail & Hloop & Htr & Hfull & Hn & Hheld &
        _ & Hvs & Hcases).
  unfold BoxingStrikeVision.run in Hrun.
  unfold bind at 1, assign at 1 in Hrun.
  rewrite Hloop in Hrun. inversion Hrun; subst r t2 w2.
  exists n, evs, tail.
  split; [exact Htr|]. split; [exact Hfull|].
  split; [exact Hn|]. split; [exact Hheld|]. split; [exact Hvs|].
  destruct Hcases as [(Hr & _)|[(_ & Ht & Hrun' & Hpos)|(_ & H)]].
  - discriminate Hr.
  - left. repeat split; try assumption. now apply Hpos.
  - right. exact H.
Qed.

Lemma run_trace_shape_witness :
  BoxingStrikeVision.running
    (state_of
       (BoxingStrikeVision.run 7
          (state_of (BoxingStrikeVision.setup fresh_tracker
                       (boot (bench true 2 9))))
          (world_of (BoxingStrikeVision.setup fresh_tracker
                       (boot (bench true 2 9)))))) = true.
Proof.
  destruct (run_trace_shape 7
              (state_of (BoxingStrikeVision.setup fresh_tracker
                           (boot (bench true 2 9))))
              (state_of
                 (BoxingStrikeVision.run 7
                    (state_of (BoxingStrikeVision.setup fresh_tracker
                                 (boot (bench true 2 9))))
                    (world_of (BoxingStrikeVision.setup fresh_tracker
                                 (boot (bench true 2 9))))))
              (world_of (BoxingStrikeVision.setup fresh_tracker
                           (boot (bench true 2 9))))
              (world_of
                 (BoxingStrikeVision.run 7
                    (state_of (BoxingStrikeVision.setup fresh_tracker
                                 (boot (bench true 2 9))))
                    (world_of (BoxingStrikeVision.setup fresh_tracker
                                 (boot (bench true 2 9))))))
              {| cv2.device := 0; cv2.isOpened := true;
                 cv2.props := [(5, 30); (4, 480); (3, 640)] |})
    as (n & evs & tail & _ & _ & _ & _ & _ & [(_ & _ & Hf)|(_ & Ht)]).
  - reflexivity.
  - vm_compute. reflexivity.
  - vm_compute in Hf. discriminate Hf.
  - exact Ht.
Defined.

(** X7: [run()] on a tracker that was never set up (its stream stores no
    handle) raises the [RuntimeError] of [read()] on its first iteration:
    nothing is grabbed, shown or printed, and the running flag is left up. *)
Theorem run_before_setup (fuel : nat) (t : BoxingStrikeVision.t)
    (w : World) :
  VideoStream.cap (BoxingStrikeVision.video_stream t) = None ->
  exists t',
    BoxingStrikeVision.run (S fuel) t w =
      (Raise (RuntimeError "Video stream not started. Call start() first."),
       t', w) /\
    BoxingStrikeVision.running t' = true /\
    BoxingStrikeVision.video_stream t' = BoxingStrikeVision.video_stream t /\
    BoxingStrikeVision.fps_counter t' = BoxingStrikeVision.fps_counter t.
Proof.
  intros Hcap.
  unfold BoxingStrikeVision.run. unfold bind at 1, assign at 1.
  cbn [BoxingStrikeVision.loop].
  unfold bind at 1. unfold self at 1.
  cbn [BoxingStrikeVision.running BoxingStrikeVision.set_running].
  unfold bind at 1. unfold BoxingStrikeVision.on_video_stream, zoom.
  cbn [BoxingStrikeVision.video_stream BoxingStrikeVision.set_running].
  rewrite (read_unset _ w Hcap).
  eexists. split; [reflexivity|]. cbn. repeat split; reflexivity.
Qed.

Lemma run_before_setup_witness :
  outcome_of (BoxingStrikeVision.run 3 fresh_tracker (boot (bench true 3 9)))
  = Raise (RuntimeError "Video stream not started. Call start() first.").
Proof.
  destruct (run_before_setup 2 fresh_tracker (boot (bench true 3 9)))
    as (t' & Hrun & _); [reflexivity|].
  rewrite Hrun. reflexivity.
Defined.

(** X8: [process_frame] gives [None] back exactly when it is handed
    [None], and then it touches nothing.  On a frame it reads the clock
    once and draws once, the text being the rate that the update has just
    stored, and leaves the stream and the running flag alone. *)
Theorem process_frame_none_iff (frame : option Frame)
    (t : BoxingStrikeVision.t) (w : World) :
  exists r t' w',
    BoxingStrikeVision.process_frame frame t w = (Ret r, t', w') /\
    (r = None <-> frame = None) /\
    (frame = None -> t' = t /\ w' = w) /\
    (frame <> None ->
     trace w' =
       [EvPutText (FPSCounter.fps_text (BoxingStrikeVision.fps_counter t'))
                  (10, 30);
        EvTime (clock (env w) (ticks w))] ++ trace w /\
     BoxingStrikeVision.fps_counter t' =
       state_of (FPSCounter.update (BoxingStrikeVision.fps_counter t) w)) /\
    BoxingStrikeVision.video_stream t' = BoxingStrikeVision.video_stream t /\
    BoxingStrikeVision.running t' = BoxingStrikeVision.running t.
Proof.
  destruct frame as [f|].
  - unfold BoxingStrikeVision.process_frame.
    unfold bind at 1. unfold BoxingStrikeVision.on_fps_counter at 1, zoom.
    rewrite update_eq. cbv zeta.
    unfold bind at 1. unfold BoxingStrikeVision.on_fps_counter at 1, zoom.
    rewrite draw_eq. unfold ret.
    eexists. eexists. eexists. split; [reflexivity|].
    unfold state_of. cbn.
    repeat split; try reflexivity; try discriminate.
  - exists None, t, w. split; [reflexivity|].
    split; [split; reflexivity|].
    split; [intros _; split; reflexivity|].
    split; [intros H; now elim H|].
    split; reflexivity.
Qed.

(** X9: the quit test looks at the low eight bits of the keyboard answer
    only: after an iteration the tracker has stopped running exactly when
    the answer is 113, the code of [q], modulo 256.  So an answer with
    modifier bits above the low byte still quits, and neither [-1] (no key)
    nor the upper-case letter does. *)
Theorem quit_key_modulo (fuel : nat) (t : BoxingStrikeVision.t) (w : World)
    (c : cv2.Capture) (raw : Frame) :
  BoxingStrikeVision.running t = true ->
  VideoStream.cap (BoxingStrikeVision.video_stream t) = Some c ->
  cv2.isOpened c = true ->
  feed (env w) (reads w) = Some raw ->
  exists t' w',
    BoxingStrikeVision.loop (S fuel) t w =
      BoxingStrikeVision.loop fuel t' w' /\
    (BoxingStrikeVision.running t' = false <->
     keys (env w) (polls w) mod 256 = 113).
Proof.
  intros Hrun Hcap Hopen Hfeed.
  destruct (loop_step fuel t w c raw Hrun Hcap Hopen Hfeed)
    as (t' & w' & evs & Hstep & _ & _ & Hrun' & _).
  exists t', w'. split; [exact Hstep|].
  rewrite Hrun'. unfold quits.
  change 255 with (Z.ones 8). rewrite Z.land_ones by lia.
  change (ord "q") with 113. change (2 ^ 8) with 256.
  destruct (Z.eqb_spec (keys (env w) (polls w) mod 256) 113) as [E|E]; cbn.
  - split; intros _; [exact E|reflexivity].
  - split; [discriminate|intros H; now elim E].
Qed.

Lemma quit_key_modulo_witness :
  exists t' w',
    BoxingStrikeVision.loop 2
      (BoxingStrikeVision.set_running true
         (state_of (BoxingStrikeVision.setup fresh_tracker
                      (boot (bench true 2 0)))))
      (world_of (BoxingStrikeVision.setup fresh_tracker
                   (boot (bench true 2 0)))) =
    BoxingStrikeVision.loop 1 t' w' /\
    BoxingStrikeVision.running t' = false.
Proof.
  destruct (quit_key_modulo 1
              (BoxingStrikeVision.set_running true
                 (state_of (BoxingStrikeVision.setup fresh_tracker
                              (boot (bench true 2 0)))))
              (world_of (BoxingStrikeVision.setup fresh_tracker
                           (boot (bench true 2 0))))
              {| cv2.device := 0; cv2.isOpened := true;
                 cv2.props := [(5, 30); (4, 480); (3, 640)] |}
              sample_frame)
    as (t' & w' & Hstep & Hiff);
    [reflexivity | reflexivity | reflexivity | reflexivity |].
  exists t', w'. split; [exact Hstep|]. apply Hiff. reflexivity.
Defined.

(** X10: what one iteration does with a delivered frame.  The calls are, in
    this order, the grab, one clock reading, [putText], [imshow] and
    [waitKey]; the text is the rate stored by the update of this very
    iteration; and the frame shown in the tracker's window is the
    rasteriser's output on the mirrored raw frame. *)
Theorem iteration_dataflow (fuel : nat) (t : BoxingStrikeVision.t)
    (w : World) (c : cv2.Capture) (raw : Frame) :
  BoxingStrikeVision.running t = true ->
  VideoStream.cap (BoxingStrikeVision.video_stream t) = Some c ->
  cv2.isOpened c = true ->
  feed (env w) (reads w) = Some raw ->
  let counter :=
    state_of (FPSCounter.update (BoxingStrikeVision.fps_counter t) w) in
  let text := FPSCounter.fps_text counter in
  let shown :=
    glyphs (env w) (cv2.flip_grid raw 1) text (10, 30)
           cv2.FONT_HERSHEY_SIMPLEX 1 (0, 255, 0) 2 in
  exists t' w',
    BoxingStrikeVision.loop (S fuel) t w =
      BoxingStrikeVision.loop fuel t' w' /\
    BoxingStrikeVision.fps_counter t' = counter /\
    trace w' =
      [EvWaitKey 1 (keys (env w) (polls w));
       EvImshow (BoxingStrikeVision.window_name t) shown;
       EvPutText text (10, 30);
       EvTime (clock (env w) (ticks w));
       EvGrab true] ++ trace w.
Proof.
  intros Hrun Hcap Hopen Hfeed counter text shown.
  subst shown text counter. rewrite update_eq. cbv zeta.
  unfold state_of. cbn [fst snd].
  cbn [BoxingStrikeVision.loop].
  unfold bind at 1. unfold self at 1. rewrite Hrun.
  unfold bind at 1. unfold BoxingStrikeVision.on_video_stream, zoom.
  rewrite (read_set _ w c Hcap), Hopen, Hfeed.
  unfold bind at 1. unfold BoxingStrikeVision.process_frame.
  unfold bind at 1. unfold BoxingStrikeVision.on_fps_counter at 1, zoom.
  rewrite update_eq. cbv zeta.
  unfold bind at 1. unfold BoxingStrikeVision.on_fps_counter at 1, zoom.
  rewrite draw_eq. unfold ret at 1.
  unfold bind at 1. unfold io at 1, cv2.imshow.
  unfold bind at 1. unfold io at 1, cv2.waitKey.
  unfold bind at 1.
  cbn [env reads ticks polls held trace windows log set_reads set_ticks
       set_polls set_windows].
  destruct (existsb _ (windows w));
    cbn [env reads ticks polls held trace windows log set_reads set_ticks
         set_polls set_windows];
    destruct (Z.eqb (Z.land (keys (env w) (polls w)) 255) (ord "q"));
    unfold assign, ret;
    (eexists; eexists; split; [reflexivity|]);
    cbn; split; reflexivity.
Qed.

Lemma iteration_dataflow_witness :
  exists t' w',
    BoxingStrikeVision.loop 2
      (BoxingStrikeVision.set_running true
         (state_of (BoxingStrikeVision.setup fresh_tracker
                      (boot (bench true 2 9)))))
      (world_of (BoxingStrikeVision.setup fresh_tracker
                   (boot (bench true 2 9)))) =
    BoxingStrikeVision.loop 1 t' w' /\
    hd_error (tl (trace w')) =
      Some (EvImshow "PunchTracker" (cv2.flip_grid sample_frame 1)).
Proof.
  destruct (iteration_dataflow 1
              (BoxingStrikeVision.set_running true
                 (state_of (BoxingStrikeVision.setup fresh_tracker
                              (boot (bench true 2 9)))))
              (world_of (BoxingStrikeVision.setup fresh_tracker
                           (boot (bench true 2 9))))
              {| cv2.device := 0; cv2.isOpened := true;
                 cv2.props := [(5, 30); (4, 480); (3, 640)] |}
              sample_frame)
    as (t' & w' & Hstep & _ & Htrace);
    [reflexivity | reflexivity | reflexivity | reflexivity |].
  exists t', w'. split; [exact Hstep|]. rewrite Htrace. reflexivity.
Defined.

(** ** Session Coordinator: cleanup and the entry point, in every world *)

(** X11: [cleanup()] never fails, whatever state the tracker is in, set up
    or not.  Afterwards the stream stores no handle and no window is open;
    a device is given back exactly when the stored handle was open; the
    rate monitor and the running flag are untouched; and a second
    [cleanup()] changes the tracker no further: it only closes the windows
    and prints the shutdown notice again. *)
Theorem cleanup_never_fails (t : BoxingStrikeVision.t) (w : World) :
  exists t' w',
    BoxingStrikeVision.cleanup t w = (Ret tt, t', w') /\
    VideoStream.cap (BoxingStrikeVision.video_stream t') = None /\
    windows w' = [] /\
    held w' =
      match VideoStream.cap (BoxingStrikeVision.video_stream t) with
      | Some c => if cv2.isOpened c then Nat.pred (held w) else held w
      | None => held w
      end /\
    BoxingStrikeVision.fps_counter t' = BoxingStrikeVision.fps_counter t /\
    BoxingStrikeVision.running t' = BoxingStrikeVision.running t /\
    (exists rest,
       trace w' =
         EvPrint BoxingStrikeVision.shutdown_notice :: EvDestroyAll :: rest) /\
    BoxingStrikeVision.cleanup t' w' =
      (Ret tt, t',
       log (EvPrint BoxingStrikeVision.shutdown_notice)
           (log EvDestroyAll w')).
Proof.
  rewrite cleanup_eq, release_eq.
  destruct t as [[i wd ht f [c|]] fc run name]; cbn.
  - destruct (cv2.isOpened c); eexists; eexists;
      (split; [reflexivity|]); cbn;
      repeat split; try reflexivity; eexists; reflexivity.
  - eexists. eexists. split; [reflexivity|]. cbn.
    repeat split; try reflexivity. eexists. reflexivity.
Qed.

(** [setup()] in [main()], in any world in which the camera can be opened. *)
Lemma setup_general (w : World) :
  camera_ok (env w) 0 = true ->
  exists t1 w1 c,
    BoxingStrikeVision.setup fresh_tracker w = (Ret tt, t1, w1) /\
    VideoStream.cap (BoxingStrikeVision.video_stream t1) = Some c /\
    cv2.isOpened c = true /\
    env w1 = env w /\
    held w1 = S (held w) /\
    trace w1 = setup_trace ++ trace w.
Proof.
  intros Hcam.
  unfold BoxingStrikeVision.setup, BoxingStrikeVision.on_video_stream, zoom,
    VideoStream.start, bind, self, io, assign, ret, raise, cv2.VideoCapture,
    cv2.set, cv2.namedWindow, print.
  cbn. rewrite Hcam. cbn.
  destruct (existsb _ (windows w));
    (eexists; eexists; eexists; split; [reflexivity|]);
    cbn; repeat split; reflexivity.
Qed.

(** The ways [main()] can end, with the exceptions that are modelled: the
    loop is still going when the fuel is spent, or [main()] returns after
    [cleanup()]. *)
Lemma main_outcomes (fuel : nat) (w : World) :
  exists r t' w',
    main fuel w = (r, t', w') /\
    (r = OutOfFuel \/
     (r = Ret tt /\
      VideoStream.cap (BoxingStrikeVision.video_stream t') = None /\
      windows w' = [] /\
      held w' = held w /\
      exists rest, trace w' = cleanup_trace ++ rest)).
Proof.
  destruct (camera_ok (env w) 0) eqn:Hcam.
  - destruct (setup_general w Hcam)
      as (t1 & w1 & c & Hsetup & Hcap & Hopen & _ & H1 & _).
    destruct (loop_shape fuel (BoxingStrikeVision.set_running true t1)
                w1 c Hcap)
      as (r & t2 & w2 & n & evs & tail & Hloop & _ & _ & _ & H2 & _ &
          Hvs & Hcases).
    cbn [BoxingStrikeVision.video_stream BoxingStrikeVision.set_running]
      in Hvs.
    assert (r = OutOfFuel \/ r = Ret tt) as [Hr|Hr]
      by (destruct Hcases as [(Hr & _)|[(Hr & _)|(Hr & _)]]; auto).
    + subst r. exists OutOfFuel, t2, w2.
      split; [exact (main_out_of_fuel _ _ _ _ _ _ Hsetup Hloop)|].
      left. reflexivity.
    + subst r.
      rewrite (main_ret _ _ _ _ _ _ Hsetup Hloop), cleanup_eq, release_eq.
      rewrite Hvs, Hcap, Hopen.
      eexists. eexists. eexists. split; [reflexivity|]. right.
      unfold state_of, world_of. cbn. rewrite H2, H1.
      repeat split; try reflexivity. eexists. reflexivity.
  - pose proof (setup_fails w Hcam) as Hsetup.
    unfold main, main_body, try_except_finally, BoxingStrikeVision.run.
    fold fresh_tracker.
    unfold bind at 1. rewrite Hsetup. cbn [is_Exception].
    unfold io at 1, print at 1. rewrite cleanup_eq.
    eexists. eexists. eexists. split; [reflexivity|]. right.
    cbn. repeat split; try reflexivity. eexists. reflexivity.
Qed.

(** Successful grabs in a trace segment made of [n] full iterations. *)
Lemma full_iterations_grab_ok (n : nat) (tr : list event) :
  full_iterations n tr = true -> length (filter is_grab_ok tr) = n.
Proof.
  revert tr. induction n as [|n IH]; intros tr H.
  - destruct tr; [reflexivity|discriminate H].
  - cbn [full_iterations] in H.
    peel_event H tr. peel_event H tr. peel_event H tr. peel_event H tr.
    peel_event H tr. destruct got; [|discriminate H].
    cbn. now rewrite (IH tr H).
Qed.

(** Counting over a trace whose middle segment is made of full iterations
    and whose outer segments are known. *)
Ltac count_all Htrace Hfull :=
  let G := fresh in let T := fresh in let P := fresh in
  let I := fresh in let K := fresh in let D := fresh in let L := fresh in
  let O := fresh in
  destruct (full_iterations_counts _ _ Hfull) as (G & T & P & I & K & D & L);
  pose proof (full_iterations_grab_ok _ _ Hfull) as O;
  rewrite ?(count_segments _ _ _ _ _ Htrace), ?G, ?T, ?P, ?I, ?K, ?D, ?L, ?O;
  cbn; lia.

(** X12: whenever [main()] returns, in any world, its last calls are those
    of [cleanup()] (release, [destroyAllWindows], shutdown notice), the
    stream stores no handle, no window is open, and exactly as many devices
    are held as before [main()] was entered, whether the camera could be
    opened or not. *)
Theorem main_always_cleans_up (fuel : nat) (w w' : World)
    (t' : BoxingStrikeVision.t) :
  main fuel w = (Ret tt, t', w') ->
  VideoStream.cap (BoxingStrikeVision.video_stream t') = None /\
  windows w' = [] /\
  held w' = held w /\
  exists rest, trace w' = cleanup_trace ++ rest.
Proof.
  intros Hmain.
  destruct (main_outcomes fuel w) as (r & t2 & w2 & Hmain' & Hcases).
  rewrite Hmain' in Hmain. inversion Hmain; subst r t2 w2.
  destruct Hcases as [Hr|(_ & H)]; [discriminate Hr|exact H].
Qed.

Lemma main_always_cleans_up_witness :
  held (world_of (main 7 (boot (bench true 3 99)))) = 0%nat /\
  windows (world_of (main 7 (boot (bench true 3 99)))) = [].
Proof.
  destruct (main_always_cleans_up 7 (boot (bench true 3 99))
              (world_of (main 7 (boot (bench true 3 99))))
              (state_of (main 7 (boot (bench true 3 99)))))
    as (_ & Hwin & Hheld & _).
  - vm_compute. reflexivity.
  - split; [exact Hheld|exact Hwin].
Defined.

(** Every run of [main()] with a camera that can be opened: the trace is
    the setup, a number of full iterations, the failing grab and the
    failure notice if the device stopped delivering, and the cleanup unless
    the loop is still going. *)
Lemma main_shape (e : Env) (fuel : nat) :
  camera_ok e 0 = true ->
  exists r t' w' n evs a,
    main fuel (boot e) = (r, t', w') /\
    trace w' = a ++ evs ++ setup_trace /\
    full_iterations n evs = true /\
    (n <= fuel)%nat /\
    ((r = OutOfFuel /\ a = []) \/
     (r = Ret tt /\ a = cleanup_trace) \/
     (r = Ret tt /\ a = cleanup_trace ++ failure_tail)).
Proof.
  intros Hcam.
  destruct (setup_ok e Hcam)
    as (t1 & w1 & c & Hsetup & Hcap & Hopen & _ & _ & _ & _ & Tr1).
  destruct (loop_shape fuel (BoxingStrikeVision.set_running true t1)
              w1 c Hcap)
    as (r & t2 & w2 & n & evs & tail & Hloop & Htr & Hfull & Hn & _ & _ &
        Hvs & Hcases).
  cbn [BoxingStrikeVision.video_stream BoxingStrikeVision.set_running] in Hvs.
  rewrite Tr1 in Htr.
  destruct Hcases as [(Hr & Ht & _)|[(Hr & Ht & _)|(Hr & Ht & _)]];
    subst r tail.
  - exists OutOfFuel, t2, w2, n, evs, [].
    split; [exact (main_out_of_fuel _ _ _ _ _ _ Hsetup Hloop)|].
    repeat split; try assumption. left. split; reflexivity.
  - rewrite (main_ret _ _ _ _ _ _ Hsetup Hloop), cleanup_eq, release_eq.
    rewrite Hvs, Hcap, Hopen.
    eexists. eexists. eexists. exists n, evs, cleanup_trace.
    split; [reflexivity|]. unfold world_of. cbn. rewrite Htr.
    repeat split; try assumption. right. left. split; reflexivity.
  - rewrite (main_ret _ _ _ _ _ _ Hsetup Hloop), cleanup_eq, release_eq.
    rewrite Hvs, Hcap, Hopen.
    eexists. eexists. eexists. exists n, evs, (cleanup_trace ++ failure_tail).
    split; [reflexivity|]. unfold world_of. cbn. rewrite Htr.
    repeat split; try assumption. right. right. split; reflexivity.
Qed.

(** X13: in every run of [main()] with a camera that can be opened, each
    frame the device delivers is stamped, shown and followed by one
    keyboard poll: the numbers of successful grabs, clock readings,
    [putText], [imshow] and [waitKey] calls are all the same.  There is at
    most one failing grab, and the failure notice is printed once for it;
    the startup notice is printed once; and when [main()] returns the
    shutdown notice has been printed once. *)
Theorem main_shows_every_frame (e : Env) (fuel : nat) :
  camera_ok e 0 = true ->
  exists r t' w' n,
    main fuel (boot e) = (r, t', w') /\
    (n <= fuel)%nat /\
    count is_grab_ok w' = n /\
    count is_time w' = n /\
    count is_puttext w' = n /\
    count is_imshow w' = n /\
    count is_waitkey w' = n /\
    (count (is_print BoxingStrikeVision.failure_notice) w' <= 1)%nat /\
    count is_grab w' =
      (n + count (is_print BoxingStrikeVision.failure_notice) w')%nat /\
    count (is_print BoxingStrikeVision.startup_notice) w' = 1%nat /\
    (r = Ret tt ->
     count (is_print BoxingStrikeVision.shutdown_notice) w' = 1%nat /\
     count is_destroy_all w' = 1%nat).
Proof.
  intros Hcam.
  destruct (main_shape e fuel Hcam)
    as (r & t' & w' & n & evs & a & Hmain & Htr & Hfull & Hn & Hcases).
  exists r, t', w', n. split; [exact Hmain|]. split; [exact Hn|].
  destruct Hcases as [(Hr & Ha)|[(Hr & Ha)|(Hr & Ha)]]; subst r a;
    repeat split; try discriminate; try intros _; count_all Htr Hfull.
Qed.

Lemma main_shows_every_frame_witness :
  exists r t' w' n,
    main 2 (boot (bench true 5 99)) = (r, t', w') /\
    count is_imshow w' = n /\
    count is_grab_ok w' = n.
Proof.
  destruct (main_shows_every_frame (bench true 5 99) 2)
    as (r & t' & w' & n & Hmain & _ & Hgrab & _ & _ & Hshow & _);
    [reflexivity|].
  exists r, t', w', n. repeat split; assumption.
Defined.

(** X14: for every [n], when the first [n] grabs deliver, grab [n + 1]
    does not, and the quit key is not seen in the first [n] polls,
    [main()] shows exactly [n] frames, polls the keyboard [n] times, grabs
    [n + 1] times, prints the failure notice once and cleans up once. *)
Theorem read_failure_after_n (e : Env) (n fuel : nat) :
  camera_ok e 0 = true ->
  (forall i, (i < n)%nat -> feed e i <> None) ->
  feed e n = None ->
  (forall i, (i < n)%nat -> quits (keys e i) = false) ->
  (n < fuel)%nat ->
  exists t' w',
    main fuel (boot e) = (Ret tt, t', w') /\
    reads w' = S n /\
    count is_grab w' = S n /\
    count is_imshow w' = n /\
    count is_waitkey w' = n /\
    count (is_print BoxingStrikeVision.failure_notice) w' = 1%nat /\
    count (is_print BoxingStrikeVision.shutdown_notice) w' = 1%nat /\
    count is_destroy_all w' = 1%nat /\
    held w' = 0%nat /\
    windows w' = [].
Proof.
  intros Hcam Hfeed Hnone Hkeys Hfuel.
  destruct (main_read_failure e n fuel Hcam Hfeed Hnone Hkeys Hfuel)
    as (t' & w' & evs & Hmain & Htrace & Hfull & Hreads & _ & Hheld & Hwin).
  exists t', w'. split; [exact Hmain|]. split; [exact Hreads|].
  repeat split; try assumption; count_all Htrace Hfull.
Qed.

Lemma read_failure_after_n_witness :
  exists t' w',
    main 9 (boot (bench true 2 99)) = (Ret tt, t', w') /\
    count is_imshow w' = 2%nat /\
    count is_grab w' = 3%nat.
Proof.
  destruct (read_failure_after_n (bench true 2 99) 2 9)
    as (t' & w' & Hmain & _ & Hgrab & Hshow & _).
  - reflexivity.
  - intros i Hi. do 2 (destruct i as [|i]; [discriminate|]). lia.
  - reflexivity.
  - intros i Hi. do 2 (destruct i as [|i]; [reflexivity|]). lia.
  - lia.
  - exists t', w'. repeat split; assumption.
Defined.

(** X15: for every [n], when the first [n + 1] grabs deliver and the quit
    key is first seen by poll [n + 1], [main()] runs exactly [n + 1] full
    iterations (the frame of the iteration in which the key is seen is
    still shown), prints no failure notice, leaves the running flag down
    and cleans up once. *)
Theorem quit_after_n (e : Env) (n fuel : nat) :
  camera_ok e 0 = true ->
  (forall i, (i <= n)%nat -> feed e i <> None) ->
  (forall i, (i < n)%nat -> quits (keys e i) = false) ->
  quits (keys e n) = true ->
  (S n < fuel)%nat ->
  exists t' w',
    main fuel (boot e) = (Ret tt, t', w') /\
    reads w' = S n /\
    polls w' = S n /\
    count is_grab w' = S n /\
    count is_imshow w' = S n /\
    count is_waitkey w' = S n /\
    count (is_print BoxingStrikeVision.failure_notice) w' = 0%nat /\
    count (is_print BoxingStrikeVision.shutdown_notice) w' = 1%nat /\
    count is_destroy_all w' = 1%nat /\
    BoxingStrikeVision.running t' = false /\
    held w' = 0%nat /\
    windows w' = [].
Proof.
  intros Hcam Hfeed Hkeys Hquit Hfuel.
  destruct (main_quit e n fuel Hcam Hfeed Hkeys Hquit Hfuel)
    as (t' & w' & evs & Hmain & Htrace & Hfull & Hreads & Hpolls & Hrun &
        _ & Hheld & Hwin).
  exists t', w'. split; [exact Hmain|]. split; [exact Hreads|].
  split; [exact Hpolls|].
  repeat split; try assumption; count_all Htrace Hfull.
Qed.

Lemma quit_after_n_witness :
  exists t' w',
    main 9 (boot (bench true 20 0)) = (Ret tt, t', w') /\
    count is_imshow w' = 1%nat /\
    BoxingStrikeVision.running t' = false.
Proof.
  destruct (quit_after_n (bench true 20 0) 0 9)
    as (t' & w' & Hmain & _ & _ & _ & Hshow & _ & _ & _ & _ & Hrun & _).
  - reflexivity.
  - intros i Hi. destruct i as [|i]; [discriminate|lia].
  - intros i Hi. lia.
  - reflexivity.
  - lia.
  - exists t', w'. repeat split; assumption.
Defined.
